(** * coilLauncher: the control loop of src/main.cpp, embedded and verified

    The sketch runs on an Arduino nano (ATmega328P): [int] is 16 bits wide,
    [long] and [unsigned long] are 32 bits wide.  The program is a single
    polling loop over a handful of global variables; its only contact with
    the outside are the Arduino core calls ([millis], [digitalRead],
    [analogRead], [digitalWrite], [delay], [Serial.print]).

    The embedding is a state-and-error monad over a [World]: the program's
    global variables together with a [Board] that carries the millisecond
    clock, the input signals as functions of time, and the chronological
    record of everything the program did to the outside. *)

From Stdlib Require Import ZArith List String Bool Lia.
Import ListNotations.
Local Open Scope string_scope.
Local Open Scope list_scope.
Local Open Scope Z_scope.

(* ================================================================== *)
(** * Pins, colours and compile-time constants (main.cpp 25-46)        *)
(* ================================================================== *)

Definition LAUNCH_SWITCH : Z := 10.
Definition HALL_SENSOR1 : Z := 2.
Definition HALL_SENSOR2 : Z := 5.
Definition TRIGGER0 : Z := 3.
Definition TRIGGER1 : Z := 4.
(** [A2] is pin 16 in the nano's pin table. *)
Definition HOLDOFF_DELAY_PIN : Z := 16.
Definition LED_RED_PIN : Z := 6.
Definition LED_BLUE_PIN : Z := 8.
Definition LED_GREEN_PIN : Z := 7.

Definition BLACK : Z := 0.
Definition RED : Z := 1.
Definition BLUE : Z := 2.
Definition GREEN : Z := 3.

Definition REARM_DELAY : Z := 5000.
Definition FAIL_SAFE_LIMIT : Z := 1000.

(** [int debounceDelay = 20;] local to [checkSwitch]. *)
Definition debounceDelay : Z := 20.

(* ================================================================== *)
(** * Machine integers                                                 *)
(* ================================================================== *)

(** [unsigned long]: arithmetic modulo 2^32. *)
Definition ulong (z : Z) : Z := z mod 2 ^ 32.
(** [int]: 16-bit two's complement. *)
Definition sint (z : Z) : Z := (z + 2 ^ 15) mod 2 ^ 16 - 2 ^ 15.
(** [long]: 32-bit two's complement. *)
Definition slong (z : Z) : Z := (z + 2 ^ 31) mod 2 ^ 32 - 2 ^ 31.

(** Modelled from the spec: the Arduino core's [map] is not among the
    sources; the spec describes the hold-off as the analog reading "scaled
    linearly" (integer, truncating) from its native range to the target
    range.  This is that linear map in [long] arithmetic, the division
    truncating towards zero as C's does. *)
Definition map (x in_min in_max out_min out_max : Z) : Z :=
  slong (Z.quot (slong (slong (x - in_min) * slong (out_max - out_min)))
                (slong (in_max - in_min)) + out_min).

(* ================================================================== *)
(** * The board                                                        *)
(* ================================================================== *)

Inductive PinMode := INPUT_PULLUP | OUTPUT.

(** What the program does to the outside, as it happens. *)
Inductive Event :=
| EvSerialBegin (baud : Z)
| EvPinMode (pin : Z) (mode : PinMode)
| EvWrite (pin : Z) (level : bool)
| EvDelay (ms : Z)
| EvPrint (s : string)
| EvPrintNum (n : Z)
| EvPrintln (s : string).

(** [clock] is the time in milliseconds since reset.  Every core call
    takes some time of its own: the [k]-th call made since reset takes
    [jitter k] milliseconds before it acts.  The input lines are signals
    over time; [trace] is the record of output events, newest first. *)
Record Board := mkBoard {
  clock : Z;
  ops : nat;
  jitter : nat -> nat;
  digital_in : Z -> Z -> bool;
  analog_in : Z -> Z -> Z;
  trace : list Event
}.

Definition tick (b : Board) : Board :=
  mkBoard (clock b + Z.of_nat (jitter b (ops b))) (S (ops b))
          (jitter b) (digital_in b) (analog_in b) (trace b).

Definition emit (e : Event) (b : Board) : Board :=
  mkBoard (clock b) (ops b) (jitter b) (digital_in b) (analog_in b)
          (e :: trace b).

Definition wait (ms : Z) (b : Board) : Board :=
  mkBoard (clock b + ms) (ops b) (jitter b) (digital_in b) (analog_in b)
          (trace b).

(** The level an output line carries after the events of a trace: the
    last value written to it, low after reset. *)
Fixpoint line_level (pin : Z) (tr : list Event) : bool :=
  match tr with
  | [] => false
  | EvWrite p v :: tr' => if p =? pin then v else line_level pin tr'
  | _ :: tr' => line_level pin tr'
  end.

(* ================================================================== *)
(** * Global variables (main.cpp 51-64)                                *)
(* ================================================================== *)

Record Globals := mkGlobals {
  coil0TriggerTime : Z;
  coil1TriggerTime : Z;
  hall1TripTime : Z;
  hall2TripTime : Z;
  pulseWidth : Z;
  holdOffDelay : Z;
  readyToLaunch : bool;
  launched : bool;
  coil0Active : bool;
  coil1Active : bool;
  hall1Tripped : bool;
  hall2Tripped : bool
}.

Definition set_coil0TriggerTime (v : Z) (g : Globals) : Globals :=
  mkGlobals v (coil1TriggerTime g) (hall1TripTime g) (hall2TripTime g)
    (pulseWidth g) (holdOffDelay g) (readyToLaunch g) (launched g)
    (coil0Active g) (coil1Active g) (hall1Tripped g) (hall2Tripped g).

Definition set_coil1TriggerTime (v : Z) (g : Globals) : Globals :=
  mkGlobals (coil0TriggerTime g) v (hall1TripTime g) (hall2TripTime g)
    (pulseWidth g) (holdOffDelay g) (readyToLaunch g) (launched g)
    (coil0Active g) (coil1Active g) (hall1Tripped g) (hall2Tripped g).

Definition set_hall1TripTime (v : Z) (g : Globals) : Globals :=
  mkGlobals (coil0TriggerTime g) (coil1TriggerTime g) v (hall2TripTime g)
    (pulseWidth g) (holdOffDelay g) (readyToLaunch g) (launched g)
    (coil0Active g) (coil1Active g) (hall1Tripped g) (hall2Tripped g).

Definition set_hall2TripTime (v : Z) (g : Globals) : Globals :=
  mkGlobals (coil0TriggerTime g) (coil1TriggerTime g) (hall1TripTime g) v
    (pulseWidth g) (holdOffDelay g) (readyToLaunch g) (launched g)
    (coil0Active g) (coil1Active g) (hall1Tripped g) (hall2Tripped g).

Definition set_holdOffDelay (v : Z) (g : Globals) : Globals :=
  mkGlobals (coil0TriggerTime g) (coil1TriggerTime g) (hall1TripTime g)
    (hall2TripTime g) (pulseWidth g) v (readyToLaunch g) (launched g)
    (coil0Active g) (coil1Active g) (hall1Tripped g) (hall2Tripped g).

Definition set_readyToLaunch (v : bool) (g : Globals) : Globals :=
  mkGlobals (coil0TriggerTime g) (coil1TriggerTime g) (hall1TripTime g)
    (hall2TripTime g) (pulseWidth g) (holdOffDelay g) v (launched g)
    (coil0Active g) (coil1Active g) (hall1Tripped g) (hall2Tripped g).

Definition set_launched (v : bool) (g : Globals) : Globals :=
  mkGlobals (coil0TriggerTime g) (coil1TriggerTime g) (hall1TripTime g)
    (hall2TripTime g) (pulseWidth g) (holdOffDelay g) (readyToLaunch g) v
    (coil0Active g) (coil1Active g) (hall1Tripped g) (hall2Tripped g).

Definition set_coil0Active (v : bool) (g : Globals) : Globals :=
  mkGlobals (coil0TriggerTime g) (coil1TriggerTime g) (hall1TripTime g)
    (hall2TripTime g) (pulseWidth g) (holdOffDelay g) (readyToLaunch g)
    (launched g) v (coil1Active g) (hall1Tripped g) (hall2Tripped g).

Definition set_coil1Active (v : bool) (g : Globals) : Globals :=
  mkGlobals (coil0TriggerTime g) (coil1TriggerTime g) (hall1TripTime g)
    (hall2TripTime g) (pulseWidth g) (holdOffDelay g) (readyToLaunch g)
    (launched g) (coil0Active g) v (hall1Tripped g) (hall2Tripped g).

Definition set_hall1Tripped (v : bool) (g : Globals) : Globals :=
  mkGlobals (coil0TriggerTime g) (coil1TriggerTime g) (hall1TripTime g)
    (hall2TripTime g) (pulseWidth g) (holdOffDelay g) (readyToLaunch g)
    (launched g) (coil0Active g) (coil1Active g) v (hall2Tripped g).

Definition set_hall2Tripped (v : bool) (g : Globals) : Globals :=
  mkGlobals (coil0TriggerTime g) (coil1TriggerTime g) (hall1TripTime g)
    (hall2TripTime g) (pulseWidth g) (holdOffDelay g) (readyToLaunch g)
    (launched g) (coil0Active g) (coil1Active g) (hall1Tripped g) v.

Record World := mkWorld {
  vars : Globals;
  board : Board
}.

(* ================================================================== *)
(** * The monad of the sketch                                          *)
(* ================================================================== *)

(** A piece of the sketch either completes with a value and a new world,
    or divides by zero, or is still spinning in [checkSwitch] when the
    fuel given to the model runs out. *)
Inductive Outcome (A : Type) :=
| Done (a : A) (w : World)
| DivideByZero
| Spinning.

Arguments Done {A} a w.
Arguments DivideByZero {A}.
Arguments Spinning {A}.

Definition M (A : Type) : Type := World -> Outcome A.

Definition ret {A} (a : A) : M A := fun w => Done a w.

Definition bind {A B} (m : M A) (k : A -> M B) : M B :=
  fun w => match m w with
           | Done a w' => k a w'
           | DivideByZero => DivideByZero
           | Spinning => Spinning
           end.

Declare Scope sketch_scope.
Delimit Scope sketch_scope with sketch.
Notation "x <- m ;; k" := (bind m (fun x => k))
  (at level 61, m at next level, right associativity) : sketch_scope.
Notation "m ;; k" := (bind m (fun _ => k))
  (at level 61, right associativity) : sketch_scope.
Local Open Scope sketch_scope.

Definition gets {A} (f : Globals -> A) : M A :=
  fun w => Done (f (vars w)) w.

Definition modify (f : Globals -> Globals) : M unit :=
  fun w => Done tt (mkWorld (f (vars w)) (board w)).

Definition on_board (f : Board -> Board) : M unit :=
  fun w => Done tt (mkWorld (vars w) (f (board w))).

(** C's short-circuit [&&]: the right operand is evaluated, with its
    effects, only when the left one is true. *)
Definition andM (a b : M bool) : M bool :=
  x <- a ;; if x then b else ret false.
Notation "a &&& b" := (andM a b)
  (at level 40, left associativity) : sketch_scope.

Definition notM (a : M bool) : M bool := x <- a ;; ret (negb x).

(* ------------------------------------------------------------------ *)
(** ** Arduino core calls                                              *)
(* ------------------------------------------------------------------ *)

Definition millis : M Z :=
  on_board tick ;;
  fun w => Done (ulong (clock (board w))) w.

(** [digitalRead] yields HIGH ([true]) or LOW ([false]). *)
Definition digitalRead (pin : Z) : M bool :=
  on_board tick ;;
  fun w => Done (digital_in (board w) pin (clock (board w))) w.

(** [analogRead] returns an [int]. *)
Definition analogRead (pin : Z) : M Z :=
  on_board tick ;;
  fun w => Done (sint (analog_in (board w) pin (clock (board w)))) w.

Definition digitalWrite (pin : Z) (level : bool) : M unit :=
  on_board tick ;; on_board (emit (EvWrite pin level)).

(** [delay] takes an [unsigned long]. *)
Definition delay (ms : Z) : M unit :=
  on_board tick ;;
  on_board (emit (EvDelay (ulong ms))) ;;
  on_board (wait (ulong ms)).

Definition pinMode (pin : Z) (mode : PinMode) : M unit :=
  on_board tick ;; on_board (emit (EvPinMode pin mode)).

Definition Serial_begin (baud : Z) : M unit :=
  on_board tick ;; on_board (emit (EvSerialBegin baud)).

Definition Serial_print (s : string) : M unit :=
  on_board tick ;; on_board (emit (EvPrint s)).

Definition Serial_printNum (n : Z) : M unit :=
  on_board tick ;; on_board (emit (EvPrintNum n)).

Definition Serial_println (s : string) : M unit :=
  on_board tick ;; on_board (emit (EvPrintln s)).

(** Unsigned division; C leaves division by zero undefined. *)
Definition udiv (a b : Z) : M Z :=
  if b =? 0 then (fun _ => DivideByZero) else ret (a / b).

(* ================================================================== *)
(** * turnLED (main.cpp 210-227)                                       *)
(* ================================================================== *)

Definition turnLED (color : Z) : M unit :=
  let '(red, green, blue) :=
    if color =? RED then (false, true, true)
    else if color =? GREEN then (true, false, true)
    else if color =? BLUE then (true, true, false)
    else (true, true, true) in
  digitalWrite LED_RED_PIN red ;;
  digitalWrite LED_GREEN_PIN green ;;
  digitalWrite LED_BLUE_PIN blue.

(* ================================================================== *)
(** * checkSwitch (main.cpp 231-250)                                   *)
(* ================================================================== *)

(** The [for] loop, entered with the current [counter], [state] and
    [prevState]; one unit of fuel per execution of the body.  The body's
    [counter=0] is followed by the loop's [counter++]. *)
Fixpoint debounce (fuel : nat) (pin : Z) (counter : Z)
  (state prevState : bool) : M bool :=
  if counter <? debounceDelay then
    match fuel with
    | O => fun _ => Spinning
    | S fuel' =>
        delay 1 ;;
        s <- digitalRead pin ;;
        if negb (Bool.eqb s prevState)
        then debounce fuel' pin (0 + 1) s s
        else debounce fuel' pin (counter + 1) s prevState
    end
  else ret state.

(** [state] is declared without a value; the loop body runs before it is
    read (the window is 20), so the placeholder [false] never shows. *)
Definition checkSwitch (fuel : nat) (pin : Z) : M bool :=
  prevState <- digitalRead pin ;;
  state <- debounce fuel pin 0 false prevState ;;
  if Bool.eqb state true then ret true else ret false.

(* ================================================================== *)
(** * loop (main.cpp 87-206), block by block                           *)
(* ================================================================== *)

(** Line 90. [map] returns a [long], stored into an [int]. *)
Definition readHoldOff : M unit :=
  r <- analogRead HOLDOFF_DELAY_PIN ;;
  modify (set_holdOffDelay (sint (map r 0 1023 0 102))).

(** [(millis() - since) > limit] in [unsigned long] arithmetic. *)
Definition elapsedOver (since : Globals -> Z) (limit : Globals -> Z)
  : M bool :=
  now <- millis ;;
  t <- gets since ;;
  lim <- gets limit ;;
  ret (ulong lim <? ulong (now - t)).

(** Lines 94-101. *)
Definition watchdog : M unit :=
  due <- gets launched
         &&& elapsedOver coil0TriggerTime (fun _ => FAIL_SAFE_LIMIT) ;;
  if due then
    Serial_println "Launch taking too long.  Shutting down!" ;;
    digitalWrite TRIGGER0 false ;;
    digitalWrite TRIGGER1 false ;;
    modify (set_launched false) ;;
    modify (set_coil0Active false) ;;
    modify (set_coil1Active false)
  else ret tt.

(** Lines 104-108. *)
Definition indicator : M unit :=
  c0 <- gets coil0Active ;;
  c1 <- gets coil1Active ;;
  r <- gets readyToLaunch ;;
  if c0 || c1 then turnLED RED
  else if negb c0 && negb c1 && negb r then turnLED BLUE
  else ret tt.

(** [digitalRead(pin) == 0] and [digitalRead(pin) == 1]. *)
Definition reads_low (pin : Z) : M bool := notM (digitalRead pin).
Definition reads_high (pin : Z) : M bool := digitalRead pin.

(** Lines 111-119. *)
Definition hall1Check : M unit :=
  c <- gets launched &&& notM (gets hall1Tripped) &&& reads_low HALL_SENSOR1 ;;
  if c then
    modify (set_hall1Tripped true) ;;
    now <- millis ;;
    modify (set_hall1TripTime now) ;;
    Serial_print "Hall1 at " ;;
    t1 <- gets hall1TripTime ;;
    t0 <- gets coil0TriggerTime ;;
    Serial_printNum (ulong (t1 - t0)) ;;
    Serial_println " ms"
  else ret tt.

(** Lines 121-129. *)
Definition hall2Check : M unit :=
  c <- gets launched &&& notM (gets hall2Tripped) &&& reads_low HALL_SENSOR2 ;;
  if c then
    modify (set_hall2Tripped true) ;;
    now <- millis ;;
    modify (set_hall2TripTime now) ;;
    Serial_print "Hall2 at " ;;
    t2 <- gets hall2TripTime ;;
    t0 <- gets coil0TriggerTime ;;
    Serial_printNum (ulong (t2 - t0)) ;;
    Serial_println " ms"
  else ret tt.

(** Lines 133-149.  The literals 45000 and 100000 are [long]; dividing by
    an [unsigned long] makes both divisions unsigned. *)
Definition speedReport : M unit :=
  h1 <- gets hall1Tripped ;;
  h2 <- gets hall2Tripped ;;
  if h1 && h2 then
    t1 <- gets hall1TripTime ;;
    t0 <- gets coil0TriggerTime ;;
    hall1SledSpeed <- udiv 45000 (ulong (t1 - t0)) ;;
    Serial_print "Hall1 Speed: " ;;
    Serial_printNum hall1SledSpeed ;;
    Serial_println " mm/s" ;;
    t2 <- gets hall2TripTime ;;
    t1' <- gets hall1TripTime ;;
    hall2SledSpeed <- udiv 100000 (ulong (t2 - t1')) ;;
    Serial_print "Hall2 Speed: " ;;
    Serial_printNum hall2SledSpeed ;;
    Serial_println " mm/s" ;;
    modify (set_hall1Tripped false) ;;
    modify (set_hall2Tripped false) ;;
    modify (set_launched false)
  else ret tt.

(** The condition of line 152. *)
Definition rearmDue (fuel : nat) : M bool :=
  elapsedOver coil0TriggerTime (fun _ => REARM_DELAY)
  &&& checkSwitch fuel LAUNCH_SWITCH.

(** Lines 152-157. *)
Definition rearm (fuel : nat) : M unit :=
  c <- rearmDue fuel ;;
  if c then
    modify (set_readyToLaunch true) ;;
    c0 <- gets coil0Active ;;
    c1 <- gets coil1Active ;;
    if negb c0 && negb c1 then turnLED GREEN else ret tt
  else ret tt.

(** Lines 158-169. *)
Definition fireCoil0 (fuel : nat) : M unit :=
  c <- gets readyToLaunch
       &&& notM (gets coil0Active)
       &&& notM (gets coil1Active)
       &&& reads_high HALL_SENSOR1
       &&& reads_high HALL_SENSOR2
       &&& notM (checkSwitch fuel LAUNCH_SWITCH) ;;
  if c then
    modify (set_readyToLaunch false) ;;
    modify (set_launched true) ;;
    modify (set_coil0Active true) ;;
    Serial_println "Coil0 Fired: 0ms" ;;
    digitalWrite TRIGGER0 true ;;
    now <- millis ;;
    modify (set_coil0TriggerTime now)
  else ret tt.

(** The condition of line 172. *)
Definition coil1Due : M bool :=
  gets launched &&& notM (gets coil1Active) &&& reads_low HALL_SENSOR1.

(** Lines 175-180: coil 0 is let go and the hold-off is announced. *)
Definition coil1Release : M unit :=
  digitalWrite TRIGGER0 false ;;
  modify (set_coil0Active false) ;;
  modify (set_coil1Active true) ;;
  Serial_print "Holdoff delay " ;;
  h <- gets holdOffDelay ;;
  Serial_printNum h ;;
  Serial_println " ms".

(** Line 181. *)
Definition holdOff : M unit :=
  h <- gets holdOffDelay ;;
  delay h.

(** Lines 182-188. *)
Definition coil1Energize : M unit :=
  digitalWrite TRIGGER1 true ;;
  now <- millis ;;
  modify (set_coil1TriggerTime now) ;;
  Serial_print "Coil1 Fired: " ;;
  t1 <- gets coil1TriggerTime ;;
  t0 <- gets coil0TriggerTime ;;
  Serial_printNum (ulong (t1 - t0)) ;;
  Serial_println " ms".

(** Lines 172-189. *)
Definition fireCoil1 : M unit :=
  c <- coil1Due ;;
  if c then coil1Release ;; holdOff ;; coil1Energize else ret tt.

(** Lines 192-198. *)
Definition coil0Expiry : M unit :=
  c <- gets coil0Active &&& elapsedOver coil0TriggerTime pulseWidth ;;
  if c then
    modify (set_coil0Active false) ;;
    digitalWrite TRIGGER0 false ;;
    Serial_println "Turn off coil0"
  else ret tt.

(** Lines 199-205. *)
Definition coil1Expiry : M unit :=
  c <- gets coil1Active &&& elapsedOver coil1TriggerTime pulseWidth ;;
  if c then
    modify (set_coil1Active false) ;;
    digitalWrite TRIGGER1 false ;;
    Serial_println "Turn off coil1"
  else ret tt.

Definition loop (fuel : nat) : M unit :=
  readHoldOff ;;
  watchdog ;;
  indicator ;;
  hall1Check ;;
  hall2Check ;;
  speedReport ;;
  rearm fuel ;;
  fireCoil0 fuel ;;
  fireCoil1 ;;
  coil0Expiry ;;
  coil1Expiry.

(* ================================================================== *)
(** * Reset, initialisers, setup (main.cpp 51-85) and the run          *)
(* ================================================================== *)

(** The world at reset: clock at zero, nothing written yet, globals
    holding their constant initialisers. *)
Definition power_on (jit : nat -> nat) (din : Z -> Z -> bool)
  (ain : Z -> Z -> Z) : World :=
  mkWorld (mkGlobals 0 0 0 0 30 0 true false false false false false)
          (mkBoard 0 0 jit din ain []).

(** Lines 51-52: the two initialisers that call [millis]. *)
Definition static_init : M unit :=
  t0 <- millis ;;
  modify (set_coil0TriggerTime t0) ;;
  t1 <- millis ;;
  modify (set_coil1TriggerTime t1).

Definition setup : M unit :=
  Serial_begin 9600 ;;
  delay 1000 ;;
  pinMode HALL_SENSOR1 INPUT_PULLUP ;;
  pinMode HALL_SENSOR2 INPUT_PULLUP ;;
  pinMode LAUNCH_SWITCH INPUT_PULLUP ;;
  pinMode TRIGGER0 OUTPUT ;;
  pinMode TRIGGER1 OUTPUT ;;
  pinMode LED_RED_PIN OUTPUT ;;
  pinMode LED_BLUE_PIN OUTPUT ;;
  pinMode LED_GREEN_PIN OUTPUT ;;
  digitalWrite LED_RED_PIN true ;;
  digitalWrite LED_GREEN_PIN false ;;
  digitalWrite LED_BLUE_PIN true.

(** Start-up followed by [n] passes through [loop]. *)
Fixpoint run (fuel : nat) (n : nat) : M unit :=
  match n with
  | O => static_init ;; setup
  | S n' => run fuel n' ;; loop fuel
  end.

(** The states the control loop reaches on a given board, and on any. *)
Definition reachable_on (jit : nat -> nat) (din : Z -> Z -> bool)
  (ain : Z -> Z -> Z) (w : World) : Prop :=
  exists fuel n, run fuel n (power_on jit din ain) = Done tt w.

Definition reachable (w : World) : Prop :=
  exists jit din ain, reachable_on jit din ain w.

(* ================================================================== *)
(** * Vocabulary of the specification                                  *)
(* ================================================================== *)

(** ** Debouncing: the samples [checkSwitch] takes *)

(** One pass through the body of the [for] loop as the board sees it:
    [delay(1)], then the [digitalRead]. *)
Definition poll_board (b : Board) : Board :=
  tick (wait (ulong 1) (emit (EvDelay (ulong 1)) (tick b))).

Fixpoint after_polls (n : nat) (b : Board) : Board :=
  match n with
  | O => b
  | S n' => poll_board (after_polls n' b)
  end.

(** The levels [checkSwitch pin] reads when called on board [b]: sample 0
    is the read before the loop, sample [i] the [i]-th poll inside it. *)
Definition sample (pin : Z) (b : Board) (i : nat) : bool :=
  digital_in b pin (clock (after_polls i (tick b))).

(** Length of the run of equal polls that ends with poll [j] (polls are
    numbered from 1; sample 0 is not a poll). *)
Fixpoint streak (s : nat -> bool) (j : nat) : nat :=
  match j with
  | O => O
  | S j' =>
      if (0 <? j')%nat && Bool.eqb (s (S j')) (s j')
      then S (streak s j') else 1%nat
  end.

(** The polls [m-19 .. m] all show the same level. *)
Definition steady_window (s : nat -> bool) (m : nat) : Prop :=
  (20 <= m)%nat /\ forall i, (m - 20 < i <= m)%nat -> s i = s m.

(** ** Example boards *)

(** A board whose core calls take no time of their own, whose digital
    lines all stay HIGH and whose analog line reads mid-scale. *)
Definition idle_world : World :=
  power_on (fun _ => 0%nat) (fun _ _ => true) (fun _ _ => 512).

(** The same board with a launch switch that flips level every
    millisecond. *)
Definition chatter_world : World :=
  power_on (fun _ => 0%nat) (fun _ t => Z.odd t) (fun _ _ => 512).

(** The same board with a launch switch that is let go five milliseconds
    after power-on: HIGH before, LOW from then on. *)
Definition bounce_world : World :=
  power_on (fun _ => 0%nat) (fun _ t => t <? 5) (fun _ _ => 512).

(** ** Clock readings *)

(** What the next call of [millis] returns. *)
Definition next_millis (w : World) : Z := ulong (clock (tick (board w))).

(** [(millis() - since)] as the next call of [millis] would make it. *)
Definition elapsed_since (since : Z) (w : World) : Z :=
  ulong (next_millis w - since).

(** The world a completed run leaves behind ([d] when it did not
    complete). *)
Definition world_of {A} (o : Outcome A) (d : World) : World :=
  match o with
  | Done _ w => w
  | _ => d
  end.

(** A slow board (40 ms per core call) with the launch switch held down
    and a sled that never reaches a sensor: four passes through [loop] and
    the hold-off reading of the fifth. *)
Definition stuck_sled_world : World :=
  world_of
    ((run 100 4 ;; readHoldOff)
       (power_on (fun _ => 40%nat)
          (fun pin _ => if pin =? LAUNCH_SWITCH then false else true)
          (fun _ _ => 512)))
    idle_world.

(** ** Mutual exclusion of the coils *)

(** At no moment recorded in the trace were both trigger lines high: the
    check is made after every single event. *)
Fixpoint never_both (tr : list Event) : bool :=
  match tr with
  | [] => true
  | e :: tr' =>
      negb (line_level TRIGGER0 (e :: tr') && line_level TRIGGER1 (e :: tr'))
      && never_both tr'
  end.

(** The flags mirror the lines, and neither the flags nor the lines were
    ever both on. *)
Definition coils_exclusive (w : World) : Prop :=
  never_both (trace (board w)) = true /\
  line_level TRIGGER0 (trace (board w)) = coil0Active (vars w) /\
  line_level TRIGGER1 (trace (board w)) = coil1Active (vars w) /\
  coil0Active (vars w) && coil1Active (vars w) = false.

(** A board on which each core call takes 1 ms, the launch switch is held
    down, sensor 1 sees the sled from 1040 ms on and sensor 2 from 1060 ms
    on; two passes through [loop]. *)
Definition launch_board_din (pin t : Z) : bool :=
  if pin =? HALL_SENSOR1 then negb (1040 <=? t)
  else if pin =? HALL_SENSOR2 then negb (1060 <=? t)
  else false.

Definition launch_start : World :=
  power_on (fun _ => 1%nat) launch_board_din (fun _ _ => 512).

Definition launch_world : World :=
  world_of (run 100 2 launch_start) idle_world.

(** The order of events in the coil-1 firing block, entered in world [w]
    from [fireCoil1] called in [w0]: coil 0 is released (line low, flag
    cleared, trigger line 1 untouched), then the hold-off delay passes
    without touching a variable, and only then is trigger line 1 raised. *)
Definition coil1_firing_order (w0 w : World) : Prop :=
  exists w1 w2 w3,
    coil1Release w = Done tt w1 /\
    holdOff w1 = Done tt w2 /\
    coil1Energize w2 = Done tt w3 /\
    fireCoil1 w0 = Done tt w3 /\
    trace (board w1)
    = [EvPrintln " ms"; EvPrintNum (holdOffDelay (vars w));
       EvPrint "Holdoff delay "; EvWrite TRIGGER0 false]
      ++ trace (board w) /\
    coil0Active (vars w1) = false /\
    line_level TRIGGER0 (trace (board w1)) = false /\
    line_level TRIGGER1 (trace (board w1))
    = line_level TRIGGER1 (trace (board w)) /\
    vars w2 = vars w1 /\
    trace (board w2)
    = EvDelay (ulong (holdOffDelay (vars w))) :: trace (board w1) /\
    trace (board w3)
    = [EvPrintln " ms";
       EvPrintNum (ulong (coil1TriggerTime (vars w3)
                          - coil0TriggerTime (vars w3)));
       EvPrint "Coil1 Fired: "; EvWrite TRIGGER1 true]
      ++ trace (board w2) /\
    coil0Active (vars w3) = false /\
    coil1Active (vars w3) = true.

(** The launch board in its first pass, just before [fireCoil1]. *)
Definition launch_before_coil1 : World :=
  world_of
    ((run 100 0 ;; readHoldOff ;; watchdog ;; indicator ;; hall1Check ;;
      hall2Check ;; speedReport ;; rearm 100 ;; fireCoil0 100) launch_start)
    idle_world.

(** ** Speed report *)

(** The two divisors of the speed computation. *)
Definition interval1 (w : World) : Z :=
  ulong (hall1TripTime (vars w) - coil0TriggerTime (vars w)).
Definition interval2 (w : World) : Z :=
  ulong (hall2TripTime (vars w) - hall1TripTime (vars w)).

(** A launch on a board whose core calls take 1 ms (one of them 2 ms), the
    switch held down, the sled in front of sensor 1 during [1161, 1201) ms
    and in front of sensor 2 during [1378, 1418) ms: 33 passes through
    [loop], then the 34th up to and including the two sensor checks. *)
Definition timed_board_din (pin t : Z) : bool :=
  if pin =? HALL_SENSOR1 then negb ((1161 <=? t) && (t <? 1201))
  else if pin =? HALL_SENSOR2 then negb ((1378 <=? t) && (t <? 1418))
  else false.

Definition timed_start : World :=
  power_on (fun k => if (k =? 300)%nat then 2%nat else 1%nat)
           timed_board_din (fun _ _ => 35).

Definition timed_before_report : World :=
  world_of
    ((run 100 33 ;; readHoldOff ;; watchdog ;; indicator ;; hall1Check ;;
      hall2Check) timed_start)
    idle_world.

(** A board whose core calls take no time of their own, with the switch
    held down: sensor 1 sees the sled from [t1] ms on, sensor 2 from [t2]
    ms on, the hold-off input reads [pot]. *)
Definition instant_world (t1 t2 pot : Z) : World :=
  power_on (fun _ => 0%nat)
    (fun pin t =>
       if pin =? HALL_SENSOR1 then t <? t1
       else if pin =? HALL_SENSOR2 then t <? t2
       else false)
    (fun _ _ => pot).

(** One pass on such a board: coil 0 fires at 1020 ms, coil 1 after the
    hold-off. *)
Definition coincident_sensors_world : World :=
  world_of (run 100 1 (instant_world 1020 1071 512)) idle_world.

Definition coincident_launch_world : World :=
  world_of (run 100 1 (instant_world 1020 1020 0)) idle_world.

(** [loop] up to the speed report. *)
Definition sensing : M unit :=
  readHoldOff ;; watchdog ;; indicator ;; hall1Check ;; hall2Check.

(** ** Properties of blocks *)

(** A property every block maintains is maintained by [loop]. *)
Definition maintains (P : World -> Prop) (m : M unit) : Prop :=
  forall w w', P w -> m w = Done tt w' -> P w'.

Definition blocks_maintain (P : World -> Prop) : Prop :=
  maintains P readHoldOff /\ maintains P watchdog /\
  maintains P indicator /\ maintains P hall1Check /\
  maintains P hall2Check /\ maintains P speedReport /\
  (forall fuel, maintains P (rearm fuel)) /\
  (forall fuel, maintains P (fireCoil0 fuel)) /\
  maintains P fireCoil1 /\ maintains P coil0Expiry /\
  maintains P coil1Expiry.

(** The blocks of [loop], in the order [loop] runs them. *)
Definition blocks (fuel : nat) : list (M unit) :=
  [readHoldOff; watchdog; indicator; hall1Check; hall2Check; speedReport;
   rearm fuel; fireCoil0 fuel; fireCoil1; coil0Expiry; coil1Expiry].

(** Blocks run one after the other. *)
Fixpoint in_sequence (bs : list (M unit)) : M unit :=
  match bs with
  | [] => ret tt
  | b :: bs' =>
      match bs' with
      | [] => b
      | _ :: _ => b ;; in_sequence bs'
      end
  end.

(** The states between two blocks of the control loop: start-up, [n] whole
    passes through [loop], and the first [k] blocks of the next pass. *)
Definition between_blocks_on (jit : nat -> nat) (din : Z -> Z -> bool)
  (ain : Z -> Z -> Z) (w : World) : Prop :=
  exists fuel n k,
    (run fuel n ;; in_sequence (firstn k (blocks fuel)))
      (power_on jit din ain) = Done tt w.

Definition between_blocks (w : World) : Prop :=
  exists jit din ain, between_blocks_on jit din ain w.

(** A block that leaves a variable as it found it. *)
Definition keeps {X} (f : Globals -> X) (m : M unit) : Prop :=
  forall w w', m w = Done tt w' -> f (vars w') = f (vars w).


(** ** One pass through [loop], stage by stage *)

(** The worlds in which the blocks after the first start. *)
Record Pass := mkPass {
  at_watchdog : World;
  at_indicator : World;
  at_hall1Check : World;
  at_hall2Check : World;
  at_speedReport : World;
  at_rearm : World;
  at_fireCoil0 : World;
  at_fireCoil1 : World;
  at_coil0Expiry : World;
  at_coil1Expiry : World
}.

(** [p] records the pass through [loop fuel] that takes [w] to [w']. *)
Definition pass_of (fuel : nat) (w : World) (p : Pass) (w' : World) : Prop :=
  readHoldOff w = Done tt (at_watchdog p) /\
  watchdog (at_watchdog p) = Done tt (at_indicator p) /\
  indicator (at_indicator p) = Done tt (at_hall1Check p) /\
  hall1Check (at_hall1Check p) = Done tt (at_hall2Check p) /\
  hall2Check (at_hall2Check p) = Done tt (at_speedReport p) /\
  speedReport (at_speedReport p) = Done tt (at_rearm p) /\
  rearm fuel (at_rearm p) = Done tt (at_fireCoil0 p) /\
  fireCoil0 fuel (at_fireCoil0 p) = Done tt (at_fireCoil1 p) /\
  fireCoil1 (at_fireCoil1 p) = Done tt (at_coil0Expiry p) /\
  coil0Expiry (at_coil0Expiry p) = Done tt (at_coil1Expiry p) /\
  coil1Expiry (at_coil1Expiry p) = Done tt w'.

(** The condition of the watchdog holds in [w]. *)
Definition watchdog_trips (w : World) : Prop :=
  launched (vars w) = true /\
  FAIL_SAFE_LIMIT < elapsed_since (coil0TriggerTime (vars w)) w.

(** The condition of the coil-1 firing block holds in [w]. *)
Definition coil1_fires (w : World) : Prop :=
  exists w', coil1Due w = Done true w'.

(** The pass [loop fuel] makes from [w], computed block by block. *)
Definition pass_from (fuel : nat) (w : World) : Pass :=
  let w1 := world_of (readHoldOff w) w in
  let w2 := world_of (watchdog w1) w in
  let w3 := world_of (indicator w2) w in
  let w4 := world_of (hall1Check w3) w in
  let w5 := world_of (hall2Check w4) w in
  let w6 := world_of (speedReport w5) w in
  let w7 := world_of (rearm fuel w6) w in
  let w8 := world_of (fireCoil0 fuel w7) w in
  let w9 := world_of (fireCoil1 w8) w in
  let w10 := world_of (coil0Expiry w9) w in
  mkPass w1 w2 w3 w4 w5 w6 w7 w8 w9 w10.

(** ** Example boards for the pulse expiry *)

(** A quick launch: each core call takes 1 ms, the switch is held down,
    the hold-off input reads 0, and the sled reaches sensor 1 at 1085 ms,
    two milliseconds after coil 0 has fired.  The first pass fires coil 0;
    the second fires coil 1. *)
Definition early_release_start : World :=
  power_on (fun _ => 1%nat)
    (fun pin t =>
       if pin =? HALL_SENSOR1 then negb (1085 <=? t)
       else if pin =? HALL_SENSOR2 then true
       else false)
    (fun _ _ => 0).

Definition early_release_before : World :=
  world_of (run 100 1 early_release_start) idle_world.

Definition early_release_after : World :=
  world_of (run 100 2 early_release_start) idle_world.

(** A launch with no sled: each core call takes 1 ms, the switch is held
    down and neither sensor ever sees anything.  Three passes: coil 0 has
    fired in the first and is still on. *)
Definition no_sled_start : World :=
  power_on (fun _ => 1%nat)
    (fun pin _ => if pin =? LAUNCH_SWITCH then false else true)
    (fun _ _ => 512).

Definition no_sled_world : World :=
  world_of (run 100 3 no_sled_start) idle_world.

(** A launch that is over before coil 0 is: each core call takes 1 ms and
    the switch is held down; sensor 1 reads LOW only during [1090, 1092) ms,
    which the sensor check of the second pass sees and the coil-1 block
    does not, and sensor 2 reads LOW from 1095 ms on.  Two passes: coil 0
    has fired in the first, both sensors have latched and the speed report
    has been made in the second. *)
Definition orphan_coil0_start : World :=
  power_on (fun _ => 1%nat)
    (fun pin t =>
       if pin =? HALL_SENSOR1 then negb ((1090 <=? t) && (t <? 1092))
       else if pin =? HALL_SENSOR2 then negb (1095 <=? t)
       else false)
    (fun _ _ => 512).

Definition orphan_coil0_world : World :=
  world_of (run 100 2 orphan_coil0_start) idle_world.

(** ** The indicator LED *)

(** The levels of the three LED lines (red, green, blue) after a trace.
    The LED has a common anode: a line that is low lights its colour. *)
Definition led_lines (tr : list Event) : bool * bool * bool :=
  (line_level LED_RED_PIN tr, line_level LED_GREEN_PIN tr,
   line_level LED_BLUE_PIN tr).

Definition led_red : bool * bool * bool := (false, true, true).
Definition led_green : bool * bool * bool := (true, false, true).
Definition led_blue : bool * bool * bool := (true, true, false).

(** Exactly one colour is lit. *)
Definition one_colour_lit (tr : list Event) : Prop :=
  led_lines tr = led_red \/ led_lines tr = led_green \/
  led_lines tr = led_blue.

(** ** Output discipline *)

(** The pins [setup] configures as outputs. *)
Definition is_output_pin (pin : Z) : bool :=
  (pin =? TRIGGER0) || (pin =? TRIGGER1) || (pin =? LED_RED_PIN)
  || (pin =? LED_GREEN_PIN) || (pin =? LED_BLUE_PIN).

(** Every write recorded in the trace went to an output pin. *)
Fixpoint writes_to_outputs (tr : list Event) : bool :=
  match tr with
  | [] => true
  | EvWrite p _ :: tr' => is_output_pin p && writes_to_outputs tr'
  | _ :: tr' => writes_to_outputs tr'
  end.

(** The pin modes a trace has set, latest first. *)
Fixpoint pin_mode (pin : Z) (tr : list Event) : option PinMode :=
  match tr with
  | [] => None
  | EvPinMode p m :: tr' => if p =? pin then Some m else pin_mode pin tr'
  | _ :: tr' => pin_mode pin tr'
  end.

(** ** Inside a block *)

(** The world after the two core calls that read the hall sensors in
    [fireCoil0]. *)
Definition after_two_reads (w : World) : World :=
  mkWorld (vars w) (tick (tick (board w))).

(** ** Example states for the sensor latches *)

(** The timed launch just after sensor 1 has latched, the sled still in
    front of it. *)
Definition latched_world : World :=
  world_of (run 100 10 timed_start) idle_world.

(** The timed launch in its tenth pass, at the first sensor check: the
    sled has just arrived at sensor 1. *)
Definition latching_world : World :=
  world_of ((run 100 9 ;; readHoldOff ;; watchdog ;; indicator) timed_start)
           idle_world.

(** Writes only go to output pins, and the pin modes are those [setup]
    chose. *)
Definition pins_as_configured (w : World) : Prop :=
  writes_to_outputs (trace (board w)) = true /\
  pin_mode TRIGGER0 (trace (board w)) = Some OUTPUT /\
  pin_mode TRIGGER1 (trace (board w)) = Some OUTPUT /\
  pin_mode LED_RED_PIN (trace (board w)) = Some OUTPUT /\
  pin_mode LED_GREEN_PIN (trace (board w)) = Some OUTPUT /\
  pin_mode LED_BLUE_PIN (trace (board w)) = Some OUTPUT /\
  pin_mode HALL_SENSOR1 (trace (board w)) = Some INPUT_PULLUP /\
  pin_mode HALL_SENSOR2 (trace (board w)) = Some INPUT_PULLUP /\
  pin_mode LAUNCH_SWITCH (trace (board w)) = Some INPUT_PULLUP.

(** The debounced switch read [fireCoil0] makes after its two sensor reads
    returns LOW: the switch is pressed. *)
Definition switch_pressed (fuel : nat) (w : World) : Prop :=
  exists ws,
    checkSwitch fuel LAUNCH_SWITCH (after_two_reads w) = Done false ws.


(** ** Timing *)














(* ================================================================== *)
(** * Properties                                                       *)
(* ================================================================== *)

(** ** Generic facts about the monad *)

Lemma bind_Done {A B} (m : M A) (k : A -> M B) w b w' :
  bind m k w = Done b w' ->
  exists a w1, m w = Done a w1 /\ k a w1 = Done b w'.
Proof.
  unfold bind. destruct (m w) as [a w1| |]; intros H; try discriminate.
  exists a, w1. split; [reflexivity | exact H].
Qed.

Lemma bind_Spinning {A B} (m : M A) (k : A -> M B) w :
  m w = Spinning -> bind m k w = Spinning.
Proof. unfold bind. intros ->. reflexivity. Qed.

(** ** Runs of equal polls *)

Lemma streak_le s j : (streak s j <= j)%nat.
Proof.
  induction j as [|j IH]; simpl; [lia|].
  destruct ((0 <? j)%nat && Bool.eqb (s (S j)) (s j)) eqn:E; [|lia].
  lia.
Qed.

Lemma streak_pos s j : (1 <= j -> 1 <= streak s j)%nat.
Proof.
  destruct j as [|j]; [lia|]. intros _. simpl.
  destruct ((0 <? j)%nat && Bool.eqb (s (S j)) (s j)); lia.
Qed.

(** A run of length at least [k] ends at poll [j] exactly when the [k]
    polls up to [j] agree. *)
Lemma streak_window s j : forall k, (1 <= k)%nat ->
  (k <= streak s j)%nat <->
  ((k <= j)%nat /\ forall i, (j - k < i <= j)%nat -> s i = s j).
Proof.
  induction j as [|j IH]; intros k Hk.
  - simpl. split; [lia | intros [H _]; lia].
  - simpl streak.
    destruct ((0 <? j)%nat && Bool.eqb (s (S j)) (s j)) eqn:E.
    + apply andb_true_iff in E. destruct E as [Hj Heq].
      apply Nat.ltb_lt in Hj. apply Bool.eqb_prop in Heq.
      destruct (Nat.eq_dec k 1) as [->|Hk1].
      * split.
        -- intros _. split; [lia|]. intros i Hi.
           assert (i = S j) by lia. subst i. reflexivity.
        -- intros _. pose proof (streak_pos s j). lia.
      * specialize (IH (k - 1)%nat ltac:(lia)). split.
        -- intros H. assert (H' : (k - 1 <= streak s j)%nat) by lia.
           apply IH in H'. destruct H' as [H1 H2]. split; [lia|].
           intros i Hi. destruct (Nat.eq_dec i (S j)) as [->|Hne];
             [reflexivity|].
           rewrite Heq. apply H2. lia.
        -- intros [H1 H2].
           assert (H' : (k - 1 <= streak s j)%nat).
           { apply IH. split; [lia|]. intros i Hi. rewrite <- Heq.
             apply H2. lia. }
           lia.
    + split.
      * intros H. assert (k = 1%nat) by lia. subst k. split; [lia|].
        intros i Hi. assert (i = S j) by lia. subst i. reflexivity.
      * intros [H1 H2].
        destruct (Nat.eq_dec k 1) as [->|Hk1]; [lia|]. exfalso.
        apply andb_false_iff in E. destruct E as [E|E].
        -- apply Nat.ltb_ge in E. lia.
        -- apply Bool.eqb_false_iff in E. apply E. symmetry.
           apply H2. lia.
Qed.

Lemma streak_steady s m :
  (20 <= streak s m)%nat <-> steady_window s m.
Proof.
  unfold steady_window. apply streak_window. lia.
Qed.

(** A change of level at poll [j] starts a new run of length one. *)
Lemma streak_change s j :
  (1 <= j)%nat -> s j <> s (j - 1)%nat -> streak s j = 1%nat.
Proof.
  destruct j as [|j]; [lia|]. intros _ H. simpl.
  replace (S j - 1)%nat with j in H by lia.
  destruct (0 <? j)%nat; simpl; [|reflexivity].
  destruct (Bool.eqb (s (S j)) (s j)) eqn:E; [|reflexivity].
  apply Bool.eqb_prop in E. contradiction.
Qed.

Lemma streak_step s j : (streak s (S j) <= S (streak s j))%nat.
Proof.
  simpl. destruct ((0 <? j)%nat && Bool.eqb (s (S j)) (s j)); lia.
Qed.

(** Runs grow by at most one poll at a time. *)
Lemma streak_grow s j n :
  (j <= n)%nat -> (streak s n <= streak s j + (n - j))%nat.
Proof.
  induction 1 as [|n Hle IH]; [lia|].
  pose proof (streak_step s n). lia.
Qed.

(** ** checkSwitch against its sample sequence *)

Lemma after_polls_digital_in n b :
  digital_in (after_polls n b) = digital_in b.
Proof. induction n as [|n IH]; simpl; [reflexivity | exact IH]. Qed.

Lemma after_polls_jitter n b : jitter (after_polls n b) = jitter b.
Proof. induction n as [|n IH]; simpl; [reflexivity | exact IH]. Qed.

Lemma poll_step pin (K : bool -> M bool) g b :
  (delay 1 ;; s <- digitalRead pin ;; K s) (mkWorld g b)
  = K (digital_in b pin (clock (poll_board b))) (mkWorld g (poll_board b)).
Proof. reflexivity. Qed.

Section Debounce.

Variable pin : Z.
Variable b0 : Board.
Let s := sample pin b0.

Lemma sample_after j :
  digital_in (after_polls j (tick b0)) pin
    (clock (poll_board (after_polls j (tick b0)))) = s (S j).
Proof.
  unfold s, sample. rewrite after_polls_digital_in. reflexivity.
Qed.

(** The loop invariant: after [j] polls the counter is the length of the
    current run.  The loop stops at the first poll that completes a run of
    twenty; while the fuel lasts without that, it spins. *)
Lemma debounce_spec : forall fuel j c st p g,
  c = Z.of_nat (streak s j) ->
  p = s j ->
  ((1 <= j)%nat -> st = s j) ->
  (forall m, (m < j)%nat -> (streak s m < 20)%nat) ->
  (streak s j <= 20)%nat ->
  match debounce fuel pin c st p (mkWorld g (after_polls j (tick b0))) with
  | Done v w' =>
      exists n, (j <= n)%nat /\ streak s n = 20%nat /\
        (forall m, (m < n)%nat -> (streak s m < 20)%nat) /\
        ((1 <= n)%nat -> v = s n) /\
        w' = mkWorld g (after_polls n (tick b0))
  | Spinning => forall m, (m <= j + fuel)%nat -> (streak s m < 20)%nat
  | DivideByZero => False
  end.
Proof.
  induction fuel as [|fuel IH]; intros j c st p g Hc Hp Hst Hmin Hle.
  - simpl. unfold debounceDelay.
    destruct (Z.ltb_spec c 20) as [Hlt|Hge].
    + intros m Hm. destruct (Nat.eq_dec m j) as [->|]; [lia|].
      apply Hmin. lia.
    + unfold ret. exists j. repeat split; auto; lia.
  - cbn [debounce]. unfold debounceDelay.
    destruct (Z.ltb_spec c 20) as [Hlt|Hge].
    + rewrite poll_step. rewrite sample_after.
      assert (Hmin' : forall m, (m < S j)%nat -> (streak s m < 20)%nat).
      { intros m Hm. destruct (Nat.eq_dec m j) as [->|]; [lia|].
        apply Hmin. lia. }
      pose proof (streak_step s j) as Hstep.
      change (poll_board (after_polls j (tick b0)))
        with (after_polls (S j) (tick b0)).
      destruct (negb (Bool.eqb (s (S j)) p)) eqn:E.
      * apply negb_true_iff, Bool.eqb_false_iff in E.
        assert (Hs : streak s (S j) = 1%nat).
        { apply streak_change; [lia|].
          replace (S j - 1)%nat with j by lia. congruence. }
        specialize (IH (S j) (0 + 1) (s (S j)) (s (S j)) g).
        destruct (debounce fuel pin (0 + 1) (s (S j)) (s (S j))
                    (mkWorld g (after_polls (S j) (tick b0)))).
        -- destruct IH as (n & H1 & H2 & H3 & H4 & H5);
             [rewrite Hs; reflexivity | reflexivity | reflexivity
             | exact Hmin' | lia |].
           exists n. repeat split; auto; lia.
        -- apply IH; [rewrite Hs; reflexivity | reflexivity | reflexivity
                     | exact Hmin' | lia ].
        -- intros m Hm. apply IH;
             [rewrite Hs; reflexivity | reflexivity | reflexivity
             | exact Hmin' | lia | lia].
      * apply negb_false_iff, Bool.eqb_prop in E.
        assert (Hs : streak s (S j) = S (streak s j)).
        { simpl. destruct j as [|j'].
          - simpl. reflexivity.
          - replace (0 <? S j')%nat with true by reflexivity.
            simpl. rewrite E, Hp, Bool.eqb_reflx. reflexivity. }
        specialize (IH (S j) (c + 1) (s (S j)) p g).
        destruct (debounce fuel pin (c + 1) (s (S j)) p
                    (mkWorld g (after_polls (S j) (tick b0)))).
        -- destruct IH as (n & H1 & H2 & H3 & H4 & H5);
             [rewrite Hs; lia | congruence | reflexivity
             | exact Hmin' | lia |].
           exists n. repeat split; auto; lia.
        -- apply IH; [rewrite Hs; lia | congruence | reflexivity
                     | exact Hmin' | lia ].
        -- intros m Hm. apply IH;
             [rewrite Hs; lia | congruence | reflexivity
             | exact Hmin' | lia | lia].
    + unfold ret. exists j. repeat split; auto; lia.
Qed.

(** [checkSwitch] as a whole, from the board [b0] it is called on. *)
Lemma checkSwitch_spec fuel g :
  match checkSwitch fuel pin (mkWorld g b0) with
  | Done v w' =>
      exists n, streak s n = 20%nat /\
        (forall m, (m < n)%nat -> (streak s m < 20)%nat) /\
        v = s n /\
        w' = mkWorld g (after_polls n (tick b0))
  | Spinning => forall m, (m <= fuel)%nat -> (streak s m < 20)%nat
  | DivideByZero => False
  end.
Proof.
  unfold checkSwitch.
  change (bind (digitalRead pin) ?k (mkWorld g b0))
    with (k (digital_in b0 pin (clock (tick b0)))
            (mkWorld g (after_polls 0 (tick b0)))).
  cbv beta.
  pose proof (debounce_spec fuel 0 0 false
                (digital_in b0 pin (clock (tick b0))) g) as H.
  unfold bind.
  destruct (debounce fuel pin 0 false (digital_in b0 pin (clock (tick b0)))
              (mkWorld g (after_polls 0 (tick b0)))) as [v w'| |].
  - destruct H as (n & H1 & H2 & H3 & H4 & H5);
      [reflexivity | reflexivity | lia | lia | simpl; lia |].
    assert (Hn : (1 <= n)%nat).
    { destruct n; [simpl in H2; discriminate | lia]. }
    rewrite (H4 Hn), H5.
    assert (Hv : (if Bool.eqb (s n) true then ret true else ret false)
                 = ret (s n)) by (destruct (s n); reflexivity).
    rewrite Hv. unfold ret. exists n. repeat split; auto.
  - apply H; try reflexivity; try lia. simpl; lia.
  - intros m Hm. apply H; try reflexivity; try lia. simpl; lia.
Qed.

End Debounce.

(** ** The debounce contract *)

Lemma checkSwitch_cases fuel pin w :
  match checkSwitch fuel pin w with
  | Done v w' =>
      exists n, streak (sample pin (board w)) n = 20%nat /\
        (forall m, (m < n)%nat -> (streak (sample pin (board w)) m < 20)%nat) /\
        v = sample pin (board w) n /\
        w' = mkWorld (vars w) (after_polls n (tick (board w)))
  | Spinning =>
      forall m, (m <= fuel)%nat -> (streak (sample pin (board w)) m < 20)%nat
  | DivideByZero => False
  end.
Proof. destruct w as [g b]. apply checkSwitch_spec. Qed.

(** ** Termination of checkSwitch *)

(** Up to any poll [k], either some first poll completes a run of twenty
    or none does. *)
Lemma first_full_streak_dec s : forall k,
  (exists n, (n <= k)%nat /\ streak s n = 20%nat /\
     forall m, (m < n)%nat -> (streak s m < 20)%nat)
  \/ (forall m, (m <= k)%nat -> (streak s m < 20)%nat).
Proof.
  induction k as [|k [IH|IH]].
  - right. intros m Hm. assert (m = 0%nat) by lia. subst m. simpl. lia.
  - left. destruct IH as (n & H1 & H2 & H3). exists n. auto.
  - destruct (le_lt_dec 20 (streak s (S k))) as [Hge|Hlt].
    + left. exists (S k). pose proof (streak_step s k).
      pose proof (IH k (Nat.le_refl k)).
      split; [lia|]. split; [lia|]. intros m Hm. apply IH. lia.
    + right. intros m Hm. destruct (Nat.eq_dec m (S k)) as [->|];
        [assumption | apply IH; lia].
Qed.

Lemma first_full_streak s k :
  (20 <= streak s k)%nat ->
  exists n, (n <= k)%nat /\ streak s n = 20%nat /\
    forall m, (m < n)%nat -> (streak s m < 20)%nat.
Proof.
  intros Hk. destruct (first_full_streak_dec s k) as [H|H]; [exact H|].
  specialize (H k (Nat.le_refl k)). lia.
Qed.

(** With fuel for them, [checkSwitch] takes exactly the polls up to the
    first one that completes a run of twenty and returns that poll's
    level. *)
Lemma checkSwitch_first_streak pin w n fuel :
  streak (sample pin (board w)) n = 20%nat ->
  (forall m, (m < n)%nat -> (streak (sample pin (board w)) m < 20)%nat) ->
  (n <= fuel)%nat ->
  checkSwitch fuel pin w
  = Done (sample pin (board w) n)
         (mkWorld (vars w) (after_polls n (tick (board w)))).
Proof.
  intros Hn Hmin Hfuel.
  pose proof (checkSwitch_cases fuel pin w) as Hc.
  destruct (checkSwitch fuel pin w) as [v w'| |].
  - destruct Hc as (n' & Hn' & Hmin' & Hv & Hw).
    assert (n' = n).
    { destruct (Nat.lt_trichotomy n' n) as [Hlt|[Heq|Hgt]].
      - specialize (Hmin n' Hlt). lia.
      - assumption.
      - specialize (Hmin' n Hgt). lia. }
    subst. reflexivity.
  - contradiction.
  - specialize (Hc n Hfuel). lia.
Qed.

(** C7. [checkSwitch] reports a level only once twenty consecutive polls,
    one millisecond apart, have all read it, and then it does report it.
    Whatever the line does: when poll [n] is the first to complete twenty
    equal polls, [checkSwitch] returns after exactly [n] polls, with the
    level of those twenty ([true] for HIGH, [false] for LOW), given fuel
    for [n] polls.  Conversely every return is of that kind: the polls
    taken end with twenty equal ones showing the level returned, no earlier
    poll completed such a run, and a poll that differed from the sample
    before it restarted the count, so that it was followed by at least
    nineteen more. *)
Theorem checkSwitch_debounce_contract : forall pin w,
  (forall n,
     steady_window (sample pin (board w)) n ->
     (forall m, (m < n)%nat -> ~ steady_window (sample pin (board w)) m) ->
     forall fuel, (n <= fuel)%nat ->
       checkSwitch fuel pin w
       = Done (sample pin (board w) n)
              (mkWorld (vars w) (after_polls n (tick (board w)))))
  /\
  (forall fuel v w',
     checkSwitch fuel pin w = Done v w' ->
     exists n,
       w' = mkWorld (vars w) (after_polls n (tick (board w))) /\
       v = sample pin (board w) n /\
       steady_window (sample pin (board w)) n /\
       (forall m, (m < n)%nat -> ~ steady_window (sample pin (board w)) m) /\
       (forall j, (1 <= j <= n)%nat ->
          sample pin (board w) j <> sample pin (board w) (j - 1) ->
          (j + 19 <= n)%nat)).
Proof.
  intros pin w. set (s := sample pin (board w)). split.
  - intros n Hn Hfirst fuel Hfuel.
    pose proof (proj2 (streak_steady s n) Hn) as H20.
    destruct (first_full_streak s n H20) as (n' & Hle & Hn' & Hmin).
    assert (n' = n).
    { destruct (Nat.eq_dec n' n) as [|Hne]; [assumption|].
      exfalso. apply (Hfirst n'); [lia | apply streak_steady; lia]. }
    subst n'. apply checkSwitch_first_streak; assumption.
  - intros fuel v w' H.
    pose proof (checkSwitch_cases fuel pin w) as Hc. rewrite H in Hc.
    fold s in Hc. destruct Hc as (n & Hn & Hmin & Hv & Hw).
    exists n. split; [assumption|]. split; [assumption|].
    split; [apply streak_steady; lia|]. split.
    + intros m Hm Hs. apply streak_steady in Hs. specialize (Hmin m Hm). lia.
    + intros j Hj Hne.
      pose proof (streak_change s j (proj1 Hj) Hne) as H1.
      pose proof (streak_grow s j n (proj2 Hj)) as Hg.
      lia.
Qed.

Lemma bounce_clock n :
  clock (after_polls n (tick (board bounce_world))) = Z.of_nat n.
Proof.
  induction n as [|n IH]; [reflexivity|].
  cbn [after_polls poll_board tick wait emit clock ops jitter].
  rewrite IH, after_polls_jitter.
  change (jitter (tick (board bounce_world))) with (fun _ : nat => 0%nat).
  change (ulong 1) with 1. cbv beta. lia.
Qed.

Lemma bounce_sample pin i :
  sample pin (board bounce_world) i = (Z.of_nat i <? 5).
Proof. unfold sample. rewrite bounce_clock. reflexivity. Qed.

(** A switch that is released five milliseconds into the call: polls 1 to
    4 read HIGH, the change at poll 5 restarts the count, and the call
    answers LOW at poll 24. *)
Lemma checkSwitch_debounce_contract_witness :
  (forall fuel, (24 <= fuel)%nat ->
     checkSwitch fuel LAUNCH_SWITCH bounce_world
     = Done false
         (mkWorld (vars bounce_world)
            (after_polls 24 (tick (board bounce_world)))))
  /\
  (exists n,
     mkWorld (vars bounce_world) (after_polls 24 (tick (board bounce_world)))
     = mkWorld (vars bounce_world)
         (after_polls n (tick (board bounce_world))) /\
     false = sample LAUNCH_SWITCH (board bounce_world) n /\
     steady_window (sample LAUNCH_SWITCH (board bounce_world)) n /\
     (forall m, (m < n)%nat ->
        ~ steady_window (sample LAUNCH_SWITCH (board bounce_world)) m) /\
     (forall j, (1 <= j <= n)%nat ->
        sample LAUNCH_SWITCH (board bounce_world) j
          <> sample LAUNCH_SWITCH (board bounce_world) (j - 1) ->
        (j + 19 <= n)%nat)).
Proof.
  assert (Hret : forall fuel, (24 <= fuel)%nat ->
     checkSwitch fuel LAUNCH_SWITCH bounce_world
     = Done false
         (mkWorld (vars bounce_world)
            (after_polls 24 (tick (board bounce_world))))).
  { intros fuel Hfuel.
    change false with (Z.of_nat 24 <? 5).
    rewrite <- (bounce_sample LAUNCH_SWITCH 24).
    apply (proj1 (checkSwitch_debounce_contract LAUNCH_SWITCH bounce_world)
             24%nat); [ | | exact Hfuel].
    - split; [lia|]. intros i Hi. rewrite !bounce_sample.
      destruct (Z.ltb_spec (Z.of_nat i) 5); [lia | reflexivity].
    - intros m Hm [H20 Hall].
      specialize (Hall 4%nat ltac:(lia)). rewrite !bounce_sample in Hall.
      destruct (Z.ltb_spec (Z.of_nat m) 5); [lia | discriminate]. }
  split; [exact Hret|].
  apply (proj2 (checkSwitch_debounce_contract LAUNCH_SWITCH bounce_world)
           24%nat false).
  apply Hret. lia.
Defined.

Lemma chatter_clock n :
  clock (after_polls n (tick (board chatter_world))) = Z.of_nat n.
Proof.
  induction n as [|n IH]; [reflexivity|].
  cbn [after_polls poll_board tick wait emit clock ops jitter].
  rewrite IH, after_polls_jitter.
  change (jitter (tick (board chatter_world))) with (fun _ : nat => 0%nat).
  change (ulong 1) with 1. cbv beta. lia.
Qed.

(** C10. [checkSwitch] returns exactly when the polls settle.  If some
    twenty consecutive polls show one level, then there is a first poll [n]
    that completes such a run, and with fuel for [n] polls [checkSwitch]
    returns the level of that run having taken [n] polls (when the given run
    is the first one, [n] is its last poll and the level is its level).  If
    instead every window of twenty consecutive polls contains a change of
    level, [checkSwitch] is still spinning whatever the fuel, and so is
    anything that runs it first. *)
Theorem checkSwitch_returns_iff_settles : forall pin w,
  (forall k, steady_window (sample pin (board w)) k ->
     exists n, (n <= k)%nat /\
       steady_window (sample pin (board w)) n /\
       (forall m, (m < n)%nat -> ~ steady_window (sample pin (board w)) m) /\
       ((forall m, (m < k)%nat -> ~ steady_window (sample pin (board w)) m) ->
        n = k) /\
       forall fuel, (n <= fuel)%nat ->
         checkSwitch fuel pin w
         = Done (sample pin (board w) n)
                (mkWorld (vars w) (after_polls n (tick (board w)))))
  /\
  ((forall i, (1 <= i)%nat ->
      exists j, (i < j <= i + 19)%nat /\
        sample pin (board w) j <> sample pin (board w) (j - 1)) ->
   forall fuel,
     checkSwitch fuel pin w = Spinning /\
     forall (B : Type) (k : bool -> M B),
       bind (checkSwitch fuel pin) k w = Spinning).
Proof.
  intros pin w. set (s := sample pin (board w)). split.
  - intros k Hk. apply streak_steady in Hk.
    destruct (first_full_streak s k Hk) as (n & Hnk & Hn & Hmin).
    exists n. split; [assumption|].
    split; [apply streak_steady; lia|]. split.
    { intros m Hm Hs. apply streak_steady in Hs. specialize (Hmin m Hm). lia. }
    split.
    { intros Hfirst. destruct (Nat.eq_dec n k) as [|Hne]; [assumption|].
      exfalso. apply (Hfirst n); [lia | apply streak_steady; lia]. }
    intros fuel Hfuel.
    pose proof (checkSwitch_cases fuel pin w) as Hc. fold s in Hc.
    destruct (checkSwitch fuel pin w) as [v w'| |].
    + destruct Hc as (n' & Hn' & Hmin' & Hv & Hw).
      assert (n' = n).
      { destruct (Nat.lt_trichotomy n' n) as [Hlt|[Heq|Hgt]].
        - specialize (Hmin n' Hlt). lia.
        - assumption.
        - specialize (Hmin' n Hgt). lia. }
      subst. reflexivity.
    + contradiction.
    + specialize (Hc n Hfuel). lia.
  - intros Hchg fuel.
    assert (Hspin : checkSwitch fuel pin w = Spinning).
    { pose proof (checkSwitch_cases fuel pin w) as Hc. fold s in Hc.
      destruct (checkSwitch fuel pin w) as [v w'| |].
      - exfalso. destruct Hc as (n & Hn & _).
        assert (Hs : steady_window s n) by (apply streak_steady; lia).
        destruct Hs as [Hn20 Hall].
        destruct (Hchg (n - 19)%nat ltac:(lia)) as (j & Hj & Hne).
        apply Hne. rewrite (Hall j), (Hall (j - 1)%nat) by lia.
        reflexivity.
      - contradiction.
      - reflexivity. }
    split; [exact Hspin|]. intros B k. apply bind_Spinning. exact Hspin.
Qed.

Lemma checkSwitch_returns_iff_settles_witness :
  (exists n, (n <= 20)%nat /\
     steady_window (sample LAUNCH_SWITCH (board idle_world)) n /\
     (forall m, (m < n)%nat ->
        ~ steady_window (sample LAUNCH_SWITCH (board idle_world)) m) /\
     ((forall m, (m < 20)%nat ->
         ~ steady_window (sample LAUNCH_SWITCH (board idle_world)) m) ->
      n = 20%nat) /\
     forall fuel, (n <= fuel)%nat ->
       checkSwitch fuel LAUNCH_SWITCH idle_world
       = Done (sample LAUNCH_SWITCH (board idle_world) n)
              (mkWorld (vars idle_world)
                 (after_polls n (tick (board idle_world)))))
  /\
  (forall fuel,
     checkSwitch fuel LAUNCH_SWITCH chatter_world = Spinning /\
     forall (B : Type) (k : bool -> M B),
       bind (checkSwitch fuel LAUNCH_SWITCH) k chatter_world = Spinning).
Proof.
  split.
  - apply (proj1 (checkSwitch_returns_iff_settles LAUNCH_SWITCH idle_world) 20%nat).
    split; [lia | intros i _; reflexivity].
  - apply (proj2 (checkSwitch_returns_iff_settles LAUNCH_SWITCH chatter_world)).
    intros i Hi. exists (S i). split; [lia|].
    unfold sample. rewrite !chatter_clock.
    change (digital_in (board chatter_world)) with (fun (_ t : Z) => Z.odd t).
    cbv beta. replace (S i - 1)%nat with i by lia.
    rewrite Nat2Z.inj_succ, Z.odd_succ, <- Z.negb_odd.
    destruct (Z.odd (Z.of_nat i)); discriminate.
Defined.

(** ** Symbolic execution of the blocks of [loop] *)

Ltac open_world w :=
  let g := fresh "g" in
  let b := fresh "b" in
  destruct w as [g b]; destruct g; destruct b.

Ltac run_block :=
  cbv beta iota zeta delta
      [bind ret gets modify on_board andM notM reads_low reads_high
       elapsedOver millis digitalRead analogRead digitalWrite delay
       Serial_print Serial_printNum Serial_println udiv turnLED
       next_millis elapsed_since vars board];
  cbn [vars board clock ops jitter digital_in analog_in trace tick emit wait
       coil0TriggerTime coil1TriggerTime hall1TripTime hall2TripTime
       pulseWidth holdOffDelay readyToLaunch launched coil0Active
       coil1Active hall1Tripped hall2Tripped
       set_coil0TriggerTime set_coil1TriggerTime set_hall1TripTime
       set_hall2TripTime set_holdOffDelay set_readyToLaunch set_launched
       set_coil0Active set_coil1Active set_hall1Tripped set_hall2Tripped
       Z.eqb Pos.eqb RED GREEN BLUE BLACK negb andb orb
       LAUNCH_SWITCH HALL_SENSOR1 HALL_SENSOR2 TRIGGER0 TRIGGER1
       LED_RED_PIN LED_GREEN_PIN LED_BLUE_PIN line_level].

(** One step of case analysis on a block: a call of [checkSwitch] is
    replaced by what [checkSwitch_cases] says of it, a test is split, a
    finished run is read off. *)
Ltac crunch_step :=
  run_block;
  match goal with
  | |- context [checkSwitch ?f ?p ?w] =>
      let H := fresh "Hsw" in
      pose proof (checkSwitch_cases f p w) as H;
      destruct (checkSwitch f p w) as [? ?| |];
      [ destruct H as (? & _ & _ & ? & ?); subst | contradiction | ]
  | |- context [if ?c then _ else _] => destruct c eqn:?
  | |- Done _ _ = Done _ _ -> _ =>
      let H := fresh in intros H; inversion H; subst; clear H
  | |- DivideByZero = Done _ _ -> _ => discriminate
  | |- Spinning = Done _ _ -> _ => discriminate
  end.

Ltac crunch := repeat crunch_step; run_block.

Ltac split_all := repeat match goal with |- _ /\ _ => split end.

Ltac unfold_blocks :=
  unfold readHoldOff, watchdog, indicator, hall1Check, hall2Check,
    speedReport, rearm, rearmDue, fireCoil0, fireCoil1, coil1Due,
    coil1Release, holdOff, coil1Energize, coil0Expiry, coil1Expiry,
    static_init, setup, pinMode, Serial_begin.

(** The eleven blocks of one pass, with the worlds between them. *)
Lemma loop_stages fuel w w' :
  loop fuel w = Done tt w' ->
  exists w1 w2 w3 w4 w5 w6 w7 w8 w9 w10,
    readHoldOff w = Done tt w1 /\
    watchdog w1 = Done tt w2 /\
    indicator w2 = Done tt w3 /\
    hall1Check w3 = Done tt w4 /\
    hall2Check w4 = Done tt w5 /\
    speedReport w5 = Done tt w6 /\
    rearm fuel w6 = Done tt w7 /\
    fireCoil0 fuel w7 = Done tt w8 /\
    fireCoil1 w8 = Done tt w9 /\
    coil0Expiry w9 = Done tt w10 /\
    coil1Expiry w10 = Done tt w'.
Proof.
  unfold loop. intros H.
  do 10 (apply bind_Done in H;
          let u := fresh "u" in
          let wi := fresh "wi" in
          let Hi := fresh "Hi" in
          destruct H as (u & wi & Hi & H); destruct u).
  do 10 eexists. repeat (split; [eassumption|]). assumption.
Qed.

Lemma loop_maintains P fuel :
  blocks_maintain P -> maintains P (loop fuel).
Proof.
  intros (H1 & H2 & H3 & H4 & H5 & H6 & H7 & H8 & H9 & H10 & H11) w w' Hw Hl.
  apply loop_stages in Hl.
  destruct Hl as (w1 & w2 & w3 & w4 & w5 & w6 & w7 & w8 & w9 & w10 &
                  S1 & S2 & S3 & S4 & S5 & S6 & S7 & S8 & S9 & S10 & S11).
  apply (H11 _ _ (H10 _ _ (H9 _ _ (H8 _ _ _ (H7 _ _ _ (H6 _ _ (H5 _ _
    (H4 _ _ (H3 _ _ (H2 _ _ (H1 _ _ Hw S1) S2) S3) S4) S5) S6) S7) S8) S9)
    S10) S11).
Qed.

Lemma run_O fuel : run fuel 0 = (static_init ;; setup).
Proof. reflexivity. Qed.

Lemma run_S fuel n : run fuel (S n) = (run fuel n ;; loop fuel).
Proof. reflexivity. Qed.

Lemma run_maintains P :
  (forall jit din ain w,
     (static_init ;; setup) (power_on jit din ain) = Done tt w -> P w) ->
  blocks_maintain P ->
  forall w, reachable w -> P w.
Proof.
  intros Hinit Hblocks w (jit & din & ain & fuel & n & Hrun).
  revert w Hrun. induction n as [|n IH]; intros w Hrun.
  - rewrite run_O in Hrun. apply (Hinit jit din ain). exact Hrun.
  - rewrite run_S in Hrun. apply bind_Done in Hrun.
    destruct Hrun as ([] & w1 & H1 & H2).
    exact (loop_maintains P fuel Hblocks w1 w (IH w1 H1) H2).
Qed.

(** ** States between blocks *)

Lemma loop_blocks fuel : loop fuel = in_sequence (blocks fuel).
Proof. reflexivity. Qed.

Lemma in_sequence_cons b bs w :
  in_sequence (b :: bs) w = (b ;; in_sequence bs) w.
Proof.
  destruct bs as [|b' bs]; [|reflexivity].
  cbn [in_sequence]. unfold bind, ret.
  destruct (b w) as [[] w'| |]; reflexivity.
Qed.

Lemma in_sequence_maintains P bs :
  Forall (maintains P) bs -> maintains P (in_sequence bs).
Proof.
  induction 1 as [|b bs Hb _ IH]; intros w w' Hw Hrun.
  - inversion Hrun. subst. exact Hw.
  - rewrite in_sequence_cons in Hrun. apply bind_Done in Hrun.
    destruct Hrun as ([] & w1 & H1 & H2).
    exact (IH w1 w' (Hb w w1 Hw H1) H2).
Qed.

Lemma blocks_Forall P fuel :
  blocks_maintain P -> Forall (maintains P) (blocks fuel).
Proof.
  intros (H1 & H2 & H3 & H4 & H5 & H6 & H7 & H8 & H9 & H10 & H11).
  unfold blocks. repeat constructor; auto.
Qed.

Lemma Forall_prefix {A} (Q : A -> Prop) k l :
  Forall Q l -> Forall Q (firstn k l).
Proof.
  intros H. rewrite <- (firstn_skipn k l) in H.
  apply Forall_app in H. exact (proj1 H).
Qed.

(** The ends of passes are among the states between blocks. *)
Lemma reachable_between w : reachable w -> between_blocks w.
Proof.
  intros (jit & din & ain & fuel & n & Hrun).
  exists jit, din, ain, fuel, n, 0%nat.
  cbn [firstn in_sequence]. unfold bind at 1. rewrite Hrun. reflexivity.
Qed.

(** What start-up establishes and every block maintains holds between any
    two blocks. *)
Lemma between_maintains P :
  (forall jit din ain w,
     (static_init ;; setup) (power_on jit din ain) = Done tt w -> P w) ->
  blocks_maintain P ->
  forall w, between_blocks w -> P w.
Proof.
  intros Hinit Hblocks w (jit & din & ain & fuel & n & k & Hrun).
  apply bind_Done in Hrun. destruct Hrun as ([] & w1 & H1 & H2).
  assert (Hw1 : P w1).
  { apply (run_maintains P Hinit Hblocks).
    exists jit, din, ain, fuel, n. exact H1. }
  exact (in_sequence_maintains P _
           (Forall_prefix _ k _ (blocks_Forall P fuel Hblocks)) w1 w Hw1 H2).
Qed.

(** ** The watchdog *)

(** C2. When [launched] is set and the time since [coil0TriggerTime], as
    the watchdog's [millis] call reads it, exceeds the fail-safe ceiling,
    the watchdog block prints its diagnostic line, writes both trigger
    lines low, and clears [launched], [coil0Active] and [coil1Active];
    [readyToLaunch], both hall flags, the four time stamps, [pulseWidth]
    and [holdOffDelay] are as before. *)
Theorem watchdog_shutdown_frame : forall w,
  launched (vars w) = true ->
  FAIL_SAFE_LIMIT < elapsed_since (coil0TriggerTime (vars w)) w ->
  exists w',
    watchdog w = Done tt w' /\
    trace (board w')
    = [EvWrite TRIGGER1 false; EvWrite TRIGGER0 false;
       EvPrintln "Launch taking too long.  Shutting down!"]
      ++ trace (board w) /\
    line_level TRIGGER0 (trace (board w')) = false /\
    line_level TRIGGER1 (trace (board w')) = false /\
    launched (vars w') = false /\
    coil0Active (vars w') = false /\
    coil1Active (vars w') = false /\
    readyToLaunch (vars w') = readyToLaunch (vars w) /\
    hall1Tripped (vars w') = hall1Tripped (vars w) /\
    hall2Tripped (vars w') = hall2Tripped (vars w) /\
    coil0TriggerTime (vars w') = coil0TriggerTime (vars w) /\
    coil1TriggerTime (vars w') = coil1TriggerTime (vars w) /\
    hall1TripTime (vars w') = hall1TripTime (vars w) /\
    hall2TripTime (vars w') = hall2TripTime (vars w) /\
    pulseWidth (vars w') = pulseWidth (vars w) /\
    holdOffDelay (vars w') = holdOffDelay (vars w).
Proof.
  intros w Hl He. open_world w. unfold watchdog. revert Hl He. run_block.
  intros -> He. run_block.
  change (ulong FAIL_SAFE_LIMIT) with FAIL_SAFE_LIMIT.
  apply Z.ltb_lt in He. rewrite He.
  eexists. split; [reflexivity|]. run_block. repeat split; reflexivity.
Qed.

Lemma watchdog_shutdown_frame_witness :
  exists w',
    watchdog stuck_sled_world = Done tt w' /\
    trace (board w')
    = [EvWrite TRIGGER1 false; EvWrite TRIGGER0 false;
       EvPrintln "Launch taking too long.  Shutting down!"]
      ++ trace (board stuck_sled_world) /\
    line_level TRIGGER0 (trace (board w')) = false /\
    line_level TRIGGER1 (trace (board w')) = false /\
    launched (vars w') = false /\
    coil0Active (vars w') = false /\
    coil1Active (vars w') = false /\
    readyToLaunch (vars w') = readyToLaunch (vars stuck_sled_world) /\
    hall1Tripped (vars w') = hall1Tripped (vars stuck_sled_world) /\
    hall2Tripped (vars w') = hall2Tripped (vars stuck_sled_world) /\
    coil0TriggerTime (vars w') = coil0TriggerTime (vars stuck_sled_world) /\
    coil1TriggerTime (vars w') = coil1TriggerTime (vars stuck_sled_world) /\
    hall1TripTime (vars w') = hall1TripTime (vars stuck_sled_world) /\
    hall2TripTime (vars w') = hall2TripTime (vars stuck_sled_world) /\
    pulseWidth (vars w') = pulseWidth (vars stuck_sled_world) /\
    holdOffDelay (vars w') = holdOffDelay (vars stuck_sled_world).
Proof.
  apply (watchdog_shutdown_frame stuck_sled_world).
  - vm_compute. reflexivity.
  - vm_compute. reflexivity.
Defined.

(** ** Mutual exclusion of the coil outputs *)

Lemma trace_after_polls n b :
  trace (after_polls n b) = repeat (EvDelay (ulong 1)) n ++ trace b.
Proof.
  induction n as [|n IH]; [reflexivity|].
  cbn [after_polls poll_board tick wait emit trace repeat app].
  rewrite IH. reflexivity.
Qed.

Lemma line_level_delays pin d n tr :
  line_level pin (repeat (EvDelay d) n ++ tr) = line_level pin tr.
Proof. induction n as [|n IH]; [reflexivity | exact IH]. Qed.

Lemma never_both_delays d n tr :
  never_both (repeat (EvDelay d) n ++ tr) = never_both tr.
Proof.
  induction n as [|n IH]; [reflexivity|].
  cbn [repeat app never_both line_level]. rewrite IH.
  rewrite !line_level_delays.
  destruct tr as [|e tr]; [reflexivity|].
  cbn [never_both].
  destruct (line_level TRIGGER0 (e :: tr) && line_level TRIGGER1 (e :: tr));
    reflexivity.
Qed.

Ltac settle_trace :=
  repeat (progress
    (rewrite ?trace_after_polls, ?never_both_delays, ?line_level_delays;
     cbn [never_both line_level trace tick emit wait Z.eqb Pos.eqb
          TRIGGER0 TRIGGER1 LED_RED_PIN LED_GREEN_PIN LED_BLUE_PIN
          negb andb orb])).

Ltac bool_cases :=
  repeat match goal with b : bool |- _ => destruct b end;
  cbn [negb andb orb] in *; congruence.

Ltac exclusive_block :=
  intros w w' (Hnb & H0 & H1 & Hx) Hrun; open_world w;
  unfold coils_exclusive in *;
  revert Hnb H0 H1 Hx; revert Hrun; unfold_blocks; crunch;
  intros Hnb H0 H1 Hx; settle_trace;
  rewrite ?Hnb, ?H0, ?H1, ?Hx;
  split_all; try reflexivity; try assumption; try bool_cases.

Lemma blocks_exclusive : blocks_maintain coils_exclusive.
Proof.
  unfold blocks_maintain, maintains.
  split_all; [ | | | | | | intros fuel | intros fuel | | | ].
  - exclusive_block.
  - exclusive_block.
  - exclusive_block.
  - exclusive_block.
  - exclusive_block.
  - exclusive_block.
  - exclusive_block.
  - exclusive_block.
  - exclusive_block.
  - exclusive_block.
  - exclusive_block.
Qed.

Lemma startup_exclusive jit din ain w :
  (static_init ;; setup) (power_on jit din ain) = Done tt w ->
  coils_exclusive w.
Proof.
  unfold power_on, coils_exclusive. unfold_blocks. crunch.
  repeat split; reflexivity.
Qed.

Lemma between_exclusive w : between_blocks w -> coils_exclusive w.
Proof.
  apply between_maintains; [apply startup_exclusive | apply blocks_exclusive].
Qed.

Lemma reachable_exclusive w : reachable w -> coils_exclusive w.
Proof. intros H. apply between_exclusive, reachable_between, H. Qed.

(** The hypothesis of line 172 once evaluated to true, [fireCoil1] is its
    body. *)
Lemma fireCoil1_body w0 w :
  coil1Due w0 = Done true w ->
  fireCoil1 w0 = (coil1Release ;; holdOff ;; coil1Energize) w.
Proof. intros H. unfold fireCoil1, bind at 1. rewrite H. reflexivity. Qed.

(** C1. In every state the control loop reaches, between any two of its
    blocks as well as at the end of a pass, [coil0Active] and [coil1Active]
    are not both set, the two trigger lines mirror the two flags, and at no
    moment up to then (after no single output event, inside a block or not)
    were both trigger lines high.  In the coil-1 firing block, coil 0's
    line is written low and its flag cleared first, with trigger line 1
    untouched; then comes the hold-off delay, which changes no variable;
    only after it is trigger line 1 written high. *)
Theorem coils_mutually_exclusive :
  (forall w, between_blocks w ->
     coil0Active (vars w) && coil1Active (vars w) = false /\
     never_both (trace (board w)) = true /\
     line_level TRIGGER0 (trace (board w)) = coil0Active (vars w) /\
     line_level TRIGGER1 (trace (board w)) = coil1Active (vars w))
  /\
  (forall w, reachable w ->
     coil0Active (vars w) && coil1Active (vars w) = false /\
     never_both (trace (board w)) = true)
  /\
  (forall w0 w, coil1Due w0 = Done true w -> coil1_firing_order w0 w).
Proof.
  split; [|split].
  - intros w Hr. destruct (between_exclusive w Hr) as (H1 & H2 & H3 & H4).
    auto.
  - intros w Hr. destruct (reachable_exclusive w Hr) as (H1 & H2 & H3 & H4).
    auto.
  - intros w0 w Hdue. unfold coil1_firing_order.
    rewrite (fireCoil1_body w0 w Hdue). clear Hdue w0.
    open_world w. unfold_blocks.
    eexists. eexists. eexists.
    split. { run_block. reflexivity. }
    split. { run_block. reflexivity. }
    split. { run_block. reflexivity. }
    split. { run_block. reflexivity. }
    run_block. split_all; reflexivity.
Qed.

(** The launch board: between the coil-0 block and the coil-1 block of the
    first pass coil 0 is on and coil 1 off; at the end of the second pass
    coil 1 is on and coil 0 off. *)
Lemma coils_mutually_exclusive_witness :
  (coil0Active (vars launch_before_coil1)
   && coil1Active (vars launch_before_coil1) = false /\
   never_both (trace (board launch_before_coil1)) = true /\
   line_level TRIGGER0 (trace (board launch_before_coil1))
   = coil0Active (vars launch_before_coil1) /\
   line_level TRIGGER1 (trace (board launch_before_coil1))
   = coil1Active (vars launch_before_coil1))
  /\
  (coil0Active (vars launch_world) && coil1Active (vars launch_world) = false /\
   never_both (trace (board launch_world)) = true)
  /\
  coil1_firing_order launch_before_coil1
    (world_of (coil1Due launch_before_coil1) idle_world).
Proof.
  split; [|split].
  - apply (proj1 coils_mutually_exclusive launch_before_coil1).
    exists (fun _ => 1%nat), launch_board_din, (fun _ _ => 512).
    exists 100%nat, 0%nat, 8%nat. vm_compute. reflexivity.
  - apply (proj1 (proj2 coils_mutually_exclusive) launch_world).
    exists (fun _ => 1%nat), launch_board_din, (fun _ _ => 512).
    exists 100%nat, 2%nat. vm_compute. reflexivity.
  - apply (proj2 (proj2 coils_mutually_exclusive) launch_before_coil1).
    vm_compute. reflexivity.
Defined.

(** ** The speed report *)

Lemma ulong_small z : 0 <= z < 2 ^ 32 -> ulong z = z.
Proof. intros H. unfold ulong. apply Z.mod_small. exact H. Qed.

Lemma ulong_range z : 0 <= ulong z < 2 ^ 32.
Proof. unfold ulong. apply Z.mod_pos_bound. lia. Qed.

(** C5. With both sensor flags set and neither interval zero, the speed
    block prints 45000 divided by [hall1TripTime - coil0TriggerTime] and
    100000 divided by [hall2TripTime - hall1TripTime] (the differences in
    [unsigned long] arithmetic, which is the plain difference for time
    stamps in order), each quotient truncated; 100 ms gives 450 and 200 ms
    gives 500; after the report both flags and [launched] are cleared. *)
Theorem speedReport_velocities : forall w,
  hall1Tripped (vars w) = true ->
  hall2Tripped (vars w) = true ->
  interval1 w <> 0 ->
  interval2 w <> 0 ->
  exists w',
    speedReport w = Done tt w' /\
    trace (board w')
    = [EvPrintln " mm/s"; EvPrintNum (100000 / interval2 w);
       EvPrint "Hall2 Speed: ";
       EvPrintln " mm/s"; EvPrintNum (45000 / interval1 w);
       EvPrint "Hall1 Speed: "]
      ++ trace (board w) /\
    (45000 / interval1 w) * interval1 w <= 45000
      < (45000 / interval1 w + 1) * interval1 w /\
    (100000 / interval2 w) * interval2 w <= 100000
      < (100000 / interval2 w + 1) * interval2 w /\
    (0 <= coil0TriggerTime (vars w) <= hall1TripTime (vars w) ->
     hall1TripTime (vars w) < 2 ^ 32 ->
     interval1 w = hall1TripTime (vars w) - coil0TriggerTime (vars w)) /\
    (0 <= hall1TripTime (vars w) <= hall2TripTime (vars w) ->
     hall2TripTime (vars w) < 2 ^ 32 ->
     interval2 w = hall2TripTime (vars w) - hall1TripTime (vars w)) /\
    (interval1 w = 100 -> 45000 / interval1 w = 450) /\
    (interval2 w = 200 -> 100000 / interval2 w = 500) /\
    hall1Tripped (vars w') = false /\
    hall2Tripped (vars w') = false /\
    launched (vars w') = false.
Proof.
  intros w H1 H2 Hd1 Hd2.
  pose proof (ulong_range (hall1TripTime (vars w) - coil0TriggerTime (vars w)))
    as R1.
  pose proof (ulong_range (hall2TripTime (vars w) - hall1TripTime (vars w)))
    as R2.
  fold (interval1 w) in R1. fold (interval2 w) in R2.
  assert (P1 : 0 < interval1 w) by lia.
  assert (P2 : 0 < interval2 w) by lia.
  assert (T1 : (45000 / interval1 w) * interval1 w <= 45000
               < (45000 / interval1 w + 1) * interval1 w).
  { pose proof (Z.mul_div_le 45000 _ P1).
    pose proof (Z.mul_succ_div_gt 45000 _ P1). lia. }
  assert (T2 : (100000 / interval2 w) * interval2 w <= 100000
               < (100000 / interval2 w + 1) * interval2 w).
  { pose proof (Z.mul_div_le 100000 _ P2).
    pose proof (Z.mul_succ_div_gt 100000 _ P2). lia. }
  assert (E : exists w',
    speedReport w = Done tt w' /\
    trace (board w')
    = [EvPrintln " mm/s"; EvPrintNum (100000 / interval2 w);
       EvPrint "Hall2 Speed: ";
       EvPrintln " mm/s"; EvPrintNum (45000 / interval1 w);
       EvPrint "Hall1 Speed: "]
      ++ trace (board w) /\
    hall1Tripped (vars w') = false /\
    hall2Tripped (vars w') = false /\
    launched (vars w') = false).
  { apply Z.eqb_neq in Hd1, Hd2. revert H1 H2 Hd1 Hd2. clear.
    unfold interval1, interval2. open_world w. unfold speedReport.
    run_block. intros -> -> Hd1 Hd2. run_block. rewrite Hd1.
    run_block. rewrite Hd2. eexists. split; [reflexivity|].
    repeat split; reflexivity. }
  destruct E as (w' & E1 & E2 & E3 & E4 & E5).
  exists w'. split; [exact E1|]. split; [exact E2|].
  split; [exact T1|]. split; [exact T2|].
  split; [intros; apply ulong_small; lia|].
  split; [intros; apply ulong_small; lia|].
  split; [intros ->; reflexivity|].
  split; [intros ->; reflexivity|].
  auto.
Qed.

(** The timed launch, whose intervals are 100 ms and 200 ms: the report
    prints 450 and 500. *)
Lemma speedReport_velocities_witness :
  exists w',
    speedReport timed_before_report = Done tt w' /\
    trace (board w')
    = [EvPrintln " mm/s"; EvPrintNum 500; EvPrint "Hall2 Speed: ";
       EvPrintln " mm/s"; EvPrintNum 450; EvPrint "Hall1 Speed: "]
      ++ trace (board timed_before_report) /\
    interval1 timed_before_report = 100 /\
    interval2 timed_before_report = 200 /\
    hall1Tripped (vars w') = false /\
    hall2Tripped (vars w') = false /\
    launched (vars w') = false.
Proof.
  destruct (speedReport_velocities timed_before_report)
    as (w' & Hrun & Htr & _ & _ & _ & _ & _ & _ & H1 & H2 & Hl).
  - vm_compute. reflexivity.
  - vm_compute. reflexivity.
  - vm_compute. discriminate.
  - vm_compute. discriminate.
  - exists w'. split; [exact Hrun|]. split; [exact Htr|].
    split; [vm_compute; reflexivity|]. split; [vm_compute; reflexivity|].
    auto.
Defined.

(** On that board the two intervals are the 100 ms and 200 ms of the
    specification's example. *)
Example timed_intervals :
  interval1 timed_before_report = 100 /\ interval2 timed_before_report = 200.
Proof. vm_compute. split; reflexivity. Qed.

(** ** Division by zero *)

Lemma speedReport_fault w :
  speedReport w = DivideByZero <->
  hall1Tripped (vars w) && hall2Tripped (vars w) = true /\
  (interval1 w = 0 \/ interval2 w = 0).
Proof.
  unfold interval1, interval2. open_world w. unfold speedReport. run_block.
  destruct (hall1Tripped0 && hall2Tripped0); run_block.
  - destruct (Z.eqb_spec (ulong (hall1TripTime0 - coil0TriggerTime0)) 0)
      as [E1|E1]; run_block.
    + split; auto.
    + destruct (Z.eqb_spec (ulong (hall2TripTime0 - hall1TripTime0)) 0)
        as [E2|E2]; run_block.
      * split; auto.
      * split; [discriminate|]. intros [_ [H|H]]; contradiction.
  - split; [discriminate|]. intros [H _]. discriminate.
Qed.

(** C6. The speed block divides with no test of the divisor: it ends in a
    division by zero exactly when both flags are set and one of the two
    intervals is zero.  Both cases are reached from reset: a state whose
    next pass records equal times for the two sensors, and a state whose
    next pass records sensor 1 at the very time coil 0 was triggered; in
    both the pass ends in the division by zero. *)
Theorem speed_division_unguarded :
  (forall w,
     speedReport w = DivideByZero <->
     hall1Tripped (vars w) && hall2Tripped (vars w) = true /\
     (interval1 w = 0 \/ interval2 w = 0))
  /\
  (exists w w5,
     reachable w /\
     sensing w = Done tt w5 /\
     hall2TripTime (vars w5) = hall1TripTime (vars w5) /\
     interval1 w5 <> 0 /\ interval2 w5 = 0 /\
     speedReport w5 = DivideByZero /\
     forall fuel, loop fuel w = DivideByZero)
  /\
  (exists w w5,
     reachable w /\
     sensing w = Done tt w5 /\
     hall1TripTime (vars w5) = coil0TriggerTime (vars w5) /\
     interval1 w5 = 0 /\
     speedReport w5 = DivideByZero /\
     forall fuel, loop fuel w = DivideByZero).
Proof.
  split; [exact speedReport_fault|]. split.
  - exists coincident_sensors_world. eexists.
    split.
    { exists (fun _ => 0%nat).
      exists (fun pin t =>
                if pin =? HALL_SENSOR1 then t <? 1020
                else if pin =? HALL_SENSOR2 then t <? 1071 else false).
      exists (fun _ _ => 512). exists 100%nat, 1%nat. vm_compute. reflexivity. }
    split; [vm_compute; reflexivity|].
    split; [vm_compute; reflexivity|].
    split; [vm_compute; discriminate|].
    split; [vm_compute; reflexivity|].
    split; [vm_compute; reflexivity|].
    intros fuel. vm_compute. reflexivity.
  - exists coincident_launch_world. eexists.
    split.
    { exists (fun _ => 0%nat).
      exists (fun pin t =>
                if pin =? HALL_SENSOR1 then t <? 1020
                else if pin =? HALL_SENSOR2 then t <? 1020 else false).
      exists (fun _ _ => 0). exists 100%nat, 1%nat. vm_compute. reflexivity. }
    split; [vm_compute; reflexivity|].
    split; [vm_compute; reflexivity|].
    split; [vm_compute; reflexivity|].
    split; [vm_compute; reflexivity|].
    intros fuel. vm_compute. reflexivity.
Qed.

Lemma speed_division_unguarded_witness :
  speedReport (world_of (sensing coincident_sensors_world) idle_world)
  = DivideByZero.
Proof.
  apply (proj1 speed_division_unguarded).
  split; [vm_compute; reflexivity|]. right. vm_compute. reflexivity.
Defined.

(** ** The hold-off delay *)

Lemma slong_small z : - 2 ^ 31 <= z < 2 ^ 31 -> slong z = z.
Proof. intros H. unfold slong. rewrite Z.mod_small; lia. Qed.

Lemma sint_small z : - 2 ^ 15 <= z < 2 ^ 15 -> sint z = z.
Proof. intros H. unfold sint. rewrite Z.mod_small; lia. Qed.

(** On the native range of the converter the scaling is the truncated
    linear map, and it lands in [0, 102]. *)
Lemma map_native r :
  0 <= r <= 1023 ->
  map r 0 1023 0 102 = r * 102 / 1023 /\ 0 <= r * 102 / 1023 <= 102.
Proof.
  intros Hr.
  assert (Hq : 0 <= r * 102 / 1023 <= 102).
  { split.
    - apply Z.div_pos; lia.
    - apply Z.div_le_upper_bound; lia. }
  split; [|exact Hq].
  unfold map. rewrite !Z.sub_0_r.
  rewrite (slong_small r) by lia.
  rewrite (slong_small 102) by lia.
  rewrite (slong_small 1023) by lia.
  rewrite (slong_small (r * 102)) by lia.
  rewrite Z.quot_div_nonneg by lia.
  rewrite Z.add_0_r. apply slong_small. lia.
Qed.

Ltac keeps_block :=
  intros w w' Hrun; open_world w; revert Hrun; unfold_blocks;
  crunch; reflexivity.

(** Past the first line of [loop] nothing assigns [holdOffDelay]. *)
Lemma holdOffDelay_kept :
  keeps holdOffDelay watchdog /\ keeps holdOffDelay indicator /\
  keeps holdOffDelay hall1Check /\ keeps holdOffDelay hall2Check /\
  keeps holdOffDelay speedReport /\
  (forall fuel, keeps holdOffDelay (rearm fuel)) /\
  (forall fuel, keeps holdOffDelay (fireCoil0 fuel)) /\
  keeps holdOffDelay fireCoil1 /\ keeps holdOffDelay coil0Expiry /\
  keeps holdOffDelay coil1Expiry.
Proof.
  unfold keeps.
  split_all; [ | | | | | intros fuel | intros fuel | | | ]; keeps_block.
Qed.

(** The first line of [loop] always completes; on a reading of the
    converter's range it stores the scaled reading. *)
Lemma readHoldOff_scales w :
  0 <= analog_in (board w) HOLDOFF_DELAY_PIN (clock (tick (board w)))
    <= 1023 ->
  exists w',
    readHoldOff w = Done tt w' /\
    holdOffDelay (vars w')
    = analog_in (board w) HOLDOFF_DELAY_PIN (clock (tick (board w)))
      * 102 / 1023.
Proof.
  open_world w. unfold readHoldOff. run_block. intros Hr.
  eexists. split; [reflexivity|]. cbn [vars holdOffDelay].
  rewrite (sint_small (analog_in0 HOLDOFF_DELAY_PIN _)) by lia.
  destruct (map_native _ Hr) as [E B]. rewrite E.
  apply sint_small. lia.
Qed.

(** C8. The scaling maps every reading of the converter's range
    [0, 1023] to the reading times 102 divided by 1023, truncated, which
    lies in [0, 102].  The first line of [loop] always completes and, on
    such a reading, stores that value in [holdOffDelay]; no later block of
    the pass assigns [holdOffDelay], so a pass that completes ends with the
    value computed from its own reading. *)
Theorem holdOffDelay_bounded :
  (forall r, 0 <= r <= 1023 ->
     map r 0 1023 0 102 = r * 102 / 1023 /\
     0 <= map r 0 1023 0 102 <= 102)
  /\
  (forall w,
     0 <= analog_in (board w) HOLDOFF_DELAY_PIN (clock (tick (board w)))
       <= 1023 ->
     exists w',
       readHoldOff w = Done tt w' /\
       holdOffDelay (vars w')
       = analog_in (board w) HOLDOFF_DELAY_PIN (clock (tick (board w)))
         * 102 / 1023 /\
       0 <= holdOffDelay (vars w') <= 102)
  /\
  (forall fuel w w',
     loop fuel w = Done tt w' ->
     0 <= analog_in (board w) HOLDOFF_DELAY_PIN (clock (tick (board w)))
       <= 1023 ->
     holdOffDelay (vars w')
     = analog_in (board w) HOLDOFF_DELAY_PIN (clock (tick (board w)))
       * 102 / 1023 /\
     0 <= holdOffDelay (vars w') <= 102).
Proof.
  split; [|split].
  - intros r Hr. destruct (map_native r Hr) as [E B]. rewrite E. auto.
  - intros w Hr. destruct (readHoldOff_scales w Hr) as (w' & Hrun & E).
    exists w'. split; [exact Hrun|]. split; [exact E|].
    rewrite E. apply (map_native _ Hr).
  - intros fuel w w' Hloop Hr.
    apply loop_stages in Hloop.
    destruct Hloop as (w1 & w2 & w3 & w4 & w5 & w6 & w7 & w8 & w9 & w10 &
                       S1 & S2 & S3 & S4 & S5 & S6 & S7 & S8 & S9 & S10 & S11).
    destruct holdOffDelay_kept
      as (K2 & K3 & K4 & K5 & K6 & K7 & K8 & K9 & K10 & K11).
    rewrite (K11 _ _ S11), (K10 _ _ S10), (K9 _ _ S9), (K8 _ _ _ S8),
      (K7 _ _ _ S7), (K6 _ _ S6), (K5 _ _ S5), (K4 _ _ S4), (K3 _ _ S3),
      (K2 _ _ S2).
    destruct (readHoldOff_scales w Hr) as (w1' & Hrun & E).
    rewrite S1 in Hrun. inversion Hrun; subst w1'.
    rewrite E. split; [reflexivity|]. apply (map_native _ Hr).
Qed.

(** The launch board, whose hold-off input reads 512: the scaling gives
    51, the first line of the second pass stores it, and the second pass
    ends with it. *)
Lemma holdOffDelay_bounded_witness :
  (map 512 0 1023 0 102 = 512 * 102 / 1023 /\
   0 <= map 512 0 1023 0 102 <= 102)
  /\
  (exists w',
     readHoldOff (world_of (run 100 1 launch_start) idle_world)
     = Done tt w' /\
     holdOffDelay (vars w')
     = analog_in (board launch_start) HOLDOFF_DELAY_PIN 0 * 102 / 1023 /\
     0 <= holdOffDelay (vars w') <= 102)
  /\
  (holdOffDelay (vars launch_world)
   = analog_in (board launch_start) HOLDOFF_DELAY_PIN 0 * 102 / 1023 /\
   0 <= holdOffDelay (vars launch_world) <= 102).
Proof.
  split; [|split].
  - apply (proj1 holdOffDelay_bounded 512). lia.
  - apply (proj1 (proj2 holdOffDelay_bounded)
             (world_of (run 100 1 launch_start) idle_world)).
    vm_compute. split; discriminate.
  - apply (proj2 (proj2 holdOffDelay_bounded) 100%nat
             (world_of (run 100 1 launch_start) idle_world) launch_world).
    + vm_compute. reflexivity.
    + vm_compute. split; discriminate.
Defined.

(** ** Passes through [loop] *)

Lemma loop_pass fuel w w' :
  loop fuel w = Done tt w' -> pass_of fuel w (pass_from fuel w) w'.
Proof.
  intros H. apply loop_stages in H.
  destruct H as (w1 & w2 & w3 & w4 & w5 & w6 & w7 & w8 & w9 & w10 &
                 S1 & S2 & S3 & S4 & S5 & S6 & S7 & S8 & S9 & S10 & S11).
  unfold pass_of, pass_from. cbn [at_watchdog at_indicator at_hall1Check
    at_hall2Check at_speedReport at_rearm at_fireCoil0 at_fireCoil1
    at_coil0Expiry at_coil1Expiry].
  rewrite S1. cbn [world_of]. rewrite S2. cbn [world_of].
  rewrite S3. cbn [world_of]. rewrite S4. cbn [world_of].
  rewrite S5. cbn [world_of]. rewrite S6. cbn [world_of].
  rewrite S7. cbn [world_of]. rewrite S8. cbn [world_of].
  rewrite S9. cbn [world_of]. rewrite S10. cbn [world_of].
  repeat split; assumption.
Qed.

Lemma pass_maintains P fuel w p w' :
  blocks_maintain P -> P w -> pass_of fuel w p w' ->
  P (at_watchdog p) /\ P (at_indicator p) /\ P (at_hall1Check p) /\
  P (at_hall2Check p) /\ P (at_speedReport p) /\ P (at_rearm p) /\
  P (at_fireCoil0 p) /\ P (at_fireCoil1 p) /\ P (at_coil0Expiry p) /\
  P (at_coil1Expiry p) /\ P w'.
Proof.
  intros (H1 & H2 & H3 & H4 & H5 & H6 & H7 & H8 & H9 & H10 & H11) Hw
         (S1 & S2 & S3 & S4 & S5 & S6 & S7 & S8 & S9 & S10 & S11).
  assert (P1 := H1 _ _ Hw S1). assert (P2 := H2 _ _ P1 S2).
  assert (P3 := H3 _ _ P2 S3). assert (P4 := H4 _ _ P3 S4).
  assert (P5 := H5 _ _ P4 S5). assert (P6 := H6 _ _ P5 S6).
  assert (P7 := H7 _ _ _ P6 S7). assert (P8 := H8 _ _ _ P7 S8).
  assert (P9 := H9 _ _ P8 S9). assert (P10 := H10 _ _ P9 S10).
  assert (P11 := H11 _ _ P10 S11).
  repeat split; assumption.
Qed.

(** [pulseWidth] is never assigned. *)
Lemma blocks_keep_pulseWidth :
  blocks_maintain (fun w => pulseWidth (vars w) = 30).
Proof.
  unfold blocks_maintain, maintains.
  split_all; [ | | | | | | intros fuel | intros fuel | | | ];
    intros w w' Hw Hrun; open_world w;
    revert Hw; revert Hrun; unfold_blocks; crunch;
    cbn [vars pulseWidth]; auto.
Qed.

Lemma reachable_pulseWidth w : reachable w -> pulseWidth (vars w) = 30.
Proof.
  apply (run_maintains (fun w => pulseWidth (vars w) = 30)).
  - intros jit din ain w0. unfold power_on. unfold_blocks. crunch.
    reflexivity.
  - apply blocks_keep_pulseWidth.
Qed.

(** ** The indicator LED *)

(** X1. [turnLED] lights the colour asked for and no other: it writes the
    three LED lines so that the line of the colour is low and the two
    others high; for a colour that is none of red, green and blue (black
    included) all three lines go high.  It touches no variable and neither
    trigger line. *)
Theorem turnLED_lights_one_colour : forall color w,
  exists w',
    turnLED color w = Done tt w' /\
    vars w' = vars w /\
    led_lines (trace (board w'))
    = (negb (color =? RED), negb (color =? GREEN), negb (color =? BLUE)) /\
    line_level TRIGGER0 (trace (board w'))
    = line_level TRIGGER0 (trace (board w)) /\
    line_level TRIGGER1 (trace (board w'))
    = line_level TRIGGER1 (trace (board w)).
Proof.
  intros color w. open_world w. unfold turnLED, led_lines.
  destruct (Z.eqb_spec color RED) as [->|HR].
  { eexists. split; [run_block; reflexivity|]. run_block.
    split_all; reflexivity. }
  destruct (Z.eqb_spec color GREEN) as [->|HG].
  { eexists. split; [run_block; reflexivity|]. run_block.
    split_all; reflexivity. }
  destruct (Z.eqb_spec color BLUE) as [->|HB].
  { eexists. split; [run_block; reflexivity|]. run_block.
    split_all; reflexivity. }
  eexists. split; [run_block; reflexivity|]. run_block.
  split_all; reflexivity.
Qed.

Ltac led_block :=
  intros w w' Hled Hrun; open_world w;
  unfold one_colour_lit, led_lines, led_red, led_green, led_blue in *;
  revert Hled; revert Hrun; unfold_blocks; crunch;
  intros Hled; settle_trace;
  first [ exact Hled
        | left; reflexivity
        | right; left; reflexivity
        | right; right; reflexivity ].

Lemma blocks_keep_one_colour :
  blocks_maintain (fun w => one_colour_lit (trace (board w))).
Proof.
  unfold blocks_maintain, maintains.
  split_all; [ | | | | | | intros fuel | intros fuel | | | ]; led_block.
Qed.

(** X2. The LED always shows exactly one colour.  [setup] lights green, and
    every later change goes through [turnLED] with red, green or blue: in
    every state between two blocks of the control loop (after start-up,
    after each block of each pass, and so at the end of each pass) exactly
    one of the three LED lines is low. *)
Theorem led_always_one_colour : forall w,
  between_blocks w -> one_colour_lit (trace (board w)).
Proof.
  apply (between_maintains (fun w => one_colour_lit (trace (board w)))).
  - intros jit din ain w. unfold power_on. unfold_blocks. crunch.
    right; left. reflexivity.
  - apply blocks_keep_one_colour.
Qed.

(** The launch board inside its first pass, between the coil-0 block,
    which has just fired, and the coil-1 block. *)
Lemma led_always_one_colour_witness :
  one_colour_lit (trace (board launch_before_coil1)).
Proof.
  apply (led_always_one_colour launch_before_coil1).
  exists (fun _ => 1%nat), launch_board_din, (fun _ _ => 512).
  exists 100%nat, 0%nat, 8%nat. vm_compute. reflexivity.
Defined.

(** X3. The indicator block at the head of [loop] shows red while either coil
    flag is set, blue when no coil flag is set and the launcher is not
    ready, and otherwise does nothing at all, so that the colour shown
    before stays (green is only ever lit by [setup] and by the re-arm
    block).  It changes no variable and neither trigger line. *)
Theorem indicator_priority : forall w,
  exists w',
    indicator w = Done tt w' /\
    vars w' = vars w /\
    line_level TRIGGER0 (trace (board w'))
    = line_level TRIGGER0 (trace (board w)) /\
    line_level TRIGGER1 (trace (board w'))
    = line_level TRIGGER1 (trace (board w)) /\
    (coil0Active (vars w) || coil1Active (vars w) = true ->
     led_lines (trace (board w')) = led_red) /\
    (coil0Active (vars w) || coil1Active (vars w) = false ->
     readyToLaunch (vars w) = false ->
     led_lines (trace (board w')) = led_blue) /\
    (coil0Active (vars w) || coil1Active (vars w) = false ->
     readyToLaunch (vars w) = true ->
     w' = w).
Proof.
  intros w. open_world w. unfold indicator, led_lines, led_red, led_blue.
  run_block.
  destruct coil0Active0, coil1Active0, readyToLaunch0; run_block;
    (eexists; split; [reflexivity|]; run_block; split_all;
     try reflexivity; intros; try reflexivity; discriminate).
Qed.

Lemma indicator_priority_witness :
  led_lines (trace (board (world_of (indicator launch_world) idle_world)))
  = led_red
  /\
  led_lines (trace (board (world_of (indicator stuck_sled_world) idle_world)))
  = led_blue
  /\
  world_of (indicator idle_world) launch_world = idle_world.
Proof.
  split; [|split].
  - destruct (indicator_priority launch_world)
      as (w' & E & _ & _ & _ & H & _).
    rewrite E. apply H. vm_compute. reflexivity.
  - destruct (indicator_priority stuck_sled_world)
      as (w' & E & _ & _ & _ & _ & H & _).
    rewrite E. apply H; vm_compute; reflexivity.
  - destruct (indicator_priority idle_world)
      as (w' & E & _ & _ & _ & _ & _ & H).
    rewrite E. apply H; vm_compute; reflexivity.
Defined.

Lemma done_inj (w1 w2 : World) : Done tt w1 = Done tt w2 -> w1 = w2.
Proof. intros H. inversion H. reflexivity. Qed.

(** X4. Green means ready.  If the LED shows green when the indicator block is
    done, the launcher is ready and neither coil flag is set: with a coil
    flag set the block would have lit red, and with the launcher idle but
    not ready it would have lit blue. *)
Theorem green_means_ready : forall w w',
  indicator w = Done tt w' ->
  led_lines (trace (board w')) = led_green ->
  readyToLaunch (vars w') = true /\
  coil0Active (vars w') = false /\
  coil1Active (vars w') = false.
Proof.
  intros w w'. open_world w.
  unfold indicator, led_lines, led_green. run_block.
  destruct coil0Active0, coil1Active0, readyToLaunch0; run_block;
    intros Hrun; apply done_inj in Hrun; subst w'; run_block;
    intros Hgreen; try discriminate; auto.
Qed.

Lemma green_means_ready_witness :
  readyToLaunch (vars (world_of (indicator (world_of (run 100 0 launch_start)
                                              idle_world)) idle_world))
  = true /\
  coil0Active (vars (world_of (indicator (world_of (run 100 0 launch_start)
                                            idle_world)) idle_world))
  = false /\
  coil1Active (vars (world_of (indicator (world_of (run 100 0 launch_start)
                                            idle_world)) idle_world))
  = false.
Proof.
  apply (green_means_ready (world_of (run 100 0 launch_start) idle_world)).
  - vm_compute. reflexivity.
  - vm_compute. reflexivity.
Defined.

(** ** The sensor latches *)

Lemma hall1TripTime_kept :
  keeps hall1TripTime readHoldOff /\ keeps hall1TripTime watchdog /\
  keeps hall1TripTime indicator /\ keeps hall1TripTime hall2Check /\
  keeps hall1TripTime speedReport /\
  (forall fuel, keeps hall1TripTime (rearm fuel)) /\
  (forall fuel, keeps hall1TripTime (fireCoil0 fuel)) /\
  keeps hall1TripTime fireCoil1 /\ keeps hall1TripTime coil0Expiry /\
  keeps hall1TripTime coil1Expiry.
Proof.
  unfold keeps.
  split_all; [ | | | | | intros fuel | intros fuel | | | ]; keeps_block.
Qed.

Lemma hall2TripTime_kept :
  keeps hall2TripTime readHoldOff /\ keeps hall2TripTime watchdog /\
  keeps hall2TripTime indicator /\ keeps hall2TripTime hall1Check /\
  keeps hall2TripTime speedReport /\
  (forall fuel, keeps hall2TripTime (rearm fuel)) /\
  (forall fuel, keeps hall2TripTime (fireCoil0 fuel)) /\
  keeps hall2TripTime fireCoil1 /\ keeps hall2TripTime coil0Expiry /\
  keeps hall2TripTime coil1Expiry.
Proof.
  unfold keeps.
  split_all; [ | | | | | intros fuel | intros fuel | | | ]; keeps_block.
Qed.

Lemma hall_flags_kept_early :
  keeps hall1Tripped readHoldOff /\ keeps hall1Tripped watchdog /\
  keeps hall1Tripped indicator /\
  keeps hall2Tripped readHoldOff /\ keeps hall2Tripped watchdog /\
  keeps hall2Tripped indicator /\ keeps hall2Tripped hall1Check.
Proof. unfold keeps. split_all; keeps_block. Qed.

Lemma hall_flags_kept_late :
  (forall fuel, keeps hall1Tripped (rearm fuel)) /\
  (forall fuel, keeps hall1Tripped (fireCoil0 fuel)) /\
  keeps hall1Tripped fireCoil1 /\ keeps hall1Tripped coil0Expiry /\
  keeps hall1Tripped coil1Expiry /\
  (forall fuel, keeps hall2Tripped (rearm fuel)) /\
  (forall fuel, keeps hall2Tripped (fireCoil0 fuel)) /\
  keeps hall2Tripped fireCoil1 /\ keeps hall2Tripped coil0Expiry /\
  keeps hall2Tripped coil1Expiry.
Proof.
  unfold keeps.
  split_all;
    [ intros fuel | intros fuel | | | | intros fuel | intros fuel | | | ];
    keeps_block.
Qed.

(** A sensor check with its flag already set, or outside a launch, does
    nothing: not even the pin is read. *)
Lemma hall1Check_idle w :
  hall1Tripped (vars w) = true \/ launched (vars w) = false ->
  hall1Check w = Done tt w.
Proof.
  open_world w. unfold hall1Check. run_block.
  intros [->| ->]; [destruct launched0|]; reflexivity.
Qed.

Lemma hall2Check_idle w :
  hall2Tripped (vars w) = true \/ launched (vars w) = false ->
  hall2Check w = Done tt w.
Proof.
  open_world w. unfold hall2Check. run_block.
  intros [->| ->]; [destruct launched0|]; reflexivity.
Qed.

(** The speed block sets no flag. *)
Lemma speedReport_sets_no_flag w w' :
  speedReport w = Done tt w' ->
  (hall1Tripped (vars w') = true -> hall1Tripped (vars w) = true) /\
  (hall2Tripped (vars w') = true -> hall2Tripped (vars w) = true).
Proof.
  open_world w. unfold speedReport. crunch; split; intros H;
    try discriminate; assumption.
Qed.

(** The watchdog never sets [launched]. *)
Lemma watchdog_never_launches w w' :
  watchdog w = Done tt w' ->
  launched (vars w) = false -> launched (vars w') = false.
Proof. open_world w. unfold watchdog. crunch; intros H; auto. Qed.

Lemma launched_kept_early :
  keeps launched readHoldOff /\ keeps launched indicator.
Proof. unfold keeps. split_all; keeps_block. Qed.

(** X5. One-shot latching.  Over a whole pass through [loop], a sensor whose
    flag is already set keeps its recorded trip time, whatever the sensor
    reads. *)
Theorem sensor_latches_once : forall fuel w w',
  loop fuel w = Done tt w' ->
  (hall1Tripped (vars w) = true ->
   hall1TripTime (vars w') = hall1TripTime (vars w)) /\
  (hall2Tripped (vars w) = true ->
   hall2TripTime (vars w') = hall2TripTime (vars w)).
Proof.
  intros fuel w w' Hloop. apply loop_stages in Hloop.
  destruct Hloop as (w1 & w2 & w3 & w4 & w5 & w6 & w7 & w8 & w9 & w10 &
                     S1 & S2 & S3 & S4 & S5 & S6 & S7 & S8 & S9 & S10 & S11).
  destruct hall1TripTime_kept
    as (A1 & A2 & A3 & A5 & A6 & A7 & A8 & A9 & A10 & A11).
  destruct hall2TripTime_kept
    as (B1 & B2 & B3 & B4 & B6 & B7 & B8 & B9 & B10 & B11).
  destruct hall_flags_kept_early as (F1 & F2 & F3 & G1 & G2 & G3 & G4).
  split; intros Hset.
  - assert (H3 : hall1Tripped (vars w3) = true).
    { rewrite (F3 _ _ S3), (F2 _ _ S2), (F1 _ _ S1). exact Hset. }
    rewrite (hall1Check_idle w3 (or_introl H3)) in S4.
    apply done_inj in S4. subst w4.
    rewrite (A11 _ _ S11), (A10 _ _ S10), (A9 _ _ S9), (A8 _ _ _ S8),
      (A7 _ _ _ S7), (A6 _ _ S6), (A5 _ _ S5), (A3 _ _ S3), (A2 _ _ S2),
      (A1 _ _ S1).
    reflexivity.
  - assert (H4 : hall2Tripped (vars w4) = true).
    { rewrite (G4 _ _ S4), (G3 _ _ S3), (G2 _ _ S2), (G1 _ _ S1).
      exact Hset. }
    rewrite (hall2Check_idle w4 (or_introl H4)) in S5.
    apply done_inj in S5. subst w5.
    rewrite (B11 _ _ S11), (B10 _ _ S10), (B9 _ _ S9), (B8 _ _ _ S8),
      (B7 _ _ _ S7), (B6 _ _ S6), (B4 _ _ S4), (B3 _ _ S3), (B2 _ _ S2),
      (B1 _ _ S1).
    reflexivity.
Qed.

Lemma sensor_latches_once_witness :
  hall1TripTime (vars (world_of (loop 100 latched_world) idle_world))
  = hall1TripTime (vars latched_world).
Proof.
  assert (Hloop : loop 100 latched_world
                  = Done tt (world_of (loop 100 latched_world) idle_world))
    by (vm_compute; reflexivity).
  apply (proj1 (sensor_latches_once 100 latched_world _ Hloop)).
  vm_compute. reflexivity.
Defined.

(** X6. Outside a launch the sensors are ignored.  A pass through [loop] that
    starts with [launched] clear records no trip time and sets no sensor
    flag, even when it fires coil 0 itself. *)
Theorem sensors_ignored_outside_launch : forall fuel w w',
  loop fuel w = Done tt w' ->
  launched (vars w) = false ->
  hall1TripTime (vars w') = hall1TripTime (vars w) /\
  hall2TripTime (vars w') = hall2TripTime (vars w) /\
  (hall1Tripped (vars w') = true -> hall1Tripped (vars w) = true) /\
  (hall2Tripped (vars w') = true -> hall2Tripped (vars w) = true).
Proof.
  intros fuel w w' Hloop Hl. apply loop_stages in Hloop.
  destruct Hloop as (w1 & w2 & w3 & w4 & w5 & w6 & w7 & w8 & w9 & w10 &
                     S1 & S2 & S3 & S4 & S5 & S6 & S7 & S8 & S9 & S10 & S11).
  destruct hall1TripTime_kept
    as (A1 & A2 & A3 & A5 & A6 & A7 & A8 & A9 & A10 & A11).
  destruct hall2TripTime_kept
    as (B1 & B2 & B3 & B4 & B6 & B7 & B8 & B9 & B10 & B11).
  destruct hall_flags_kept_early as (F1 & F2 & F3 & G1 & G2 & G3 & G4).
  destruct hall_flags_kept_late
    as (L7 & L8 & L9 & L10 & L11 & M7 & M8 & M9 & M10 & M11).
  destruct launched_kept_early as (K1 & K3).
  assert (H3 : launched (vars w3) = false).
  { rewrite (K3 _ _ S3). apply (watchdog_never_launches _ _ S2).
    rewrite (K1 _ _ S1). exact Hl. }
  rewrite (hall1Check_idle w3 (or_intror H3)) in S4.
  apply done_inj in S4. subst w4.
  rewrite (hall2Check_idle w3 (or_intror H3)) in S5.
  apply done_inj in S5. subst w5.
  destruct (speedReport_sets_no_flag _ _ S6) as [Q1 Q2].
  split; [|split; [|split]].
  - rewrite (A11 _ _ S11), (A10 _ _ S10), (A9 _ _ S9), (A8 _ _ _ S8),
      (A7 _ _ _ S7), (A6 _ _ S6), (A3 _ _ S3), (A2 _ _ S2), (A1 _ _ S1).
    reflexivity.
  - rewrite (B11 _ _ S11), (B10 _ _ S10), (B9 _ _ S9), (B8 _ _ _ S8),
      (B7 _ _ _ S7), (B6 _ _ S6), (B3 _ _ S3), (B2 _ _ S2), (B1 _ _ S1).
    reflexivity.
  - rewrite (L11 _ _ S11), (L10 _ _ S10), (L9 _ _ S9), (L8 _ _ _ S8),
      (L7 _ _ _ S7). intros H. apply Q1 in H.
    rewrite (F3 _ _ S3), (F2 _ _ S2), (F1 _ _ S1) in H. exact H.
  - rewrite (M11 _ _ S11), (M10 _ _ S10), (M9 _ _ S9), (M8 _ _ _ S8),
      (M7 _ _ _ S7). intros H. apply Q2 in H.
    rewrite (G3 _ _ S3), (G2 _ _ S2), (G1 _ _ S1) in H. exact H.
Qed.

(** On the launch board the first pass starts idle, with the sled away;
    it fires both coils and still records nothing. *)
Lemma sensors_ignored_outside_launch_witness :
  hall1TripTime (vars (world_of (run 100 1 launch_start) idle_world))
  = hall1TripTime (vars (world_of (run 100 0 launch_start) idle_world)) /\
  hall2TripTime (vars (world_of (run 100 1 launch_start) idle_world))
  = hall2TripTime (vars (world_of (run 100 0 launch_start) idle_world)) /\
  (hall1Tripped (vars (world_of (run 100 1 launch_start) idle_world)) = true ->
   hall1Tripped (vars (world_of (run 100 0 launch_start) idle_world)) = true)
  /\
  (hall2Tripped (vars (world_of (run 100 1 launch_start) idle_world)) = true ->
   hall2Tripped (vars (world_of (run 100 0 launch_start) idle_world)) = true).
Proof.
  apply (sensors_ignored_outside_launch 100).
  - vm_compute. reflexivity.
  - vm_compute. reflexivity.
Defined.

(** X7. What a latch records.  When a sensor check sets its flag, a launch was
    in progress and the sensor read LOW; the trip time stored is the
    [millis] reading taken right after that read, and the line printed
    gives it relative to [coil0TriggerTime]. *)
Theorem sensor_latch_records : forall w w',
  (hall1Check w = Done tt w' ->
   hall1Tripped (vars w) = false ->
   hall1Tripped (vars w') = true ->
   launched (vars w) = true /\
   digital_in (board w) HALL_SENSOR1 (clock (tick (board w))) = false /\
   hall1TripTime (vars w') = ulong (clock (tick (tick (board w)))) /\
   trace (board w')
   = [EvPrintln " ms";
      EvPrintNum (ulong (hall1TripTime (vars w')
                         - coil0TriggerTime (vars w)));
      EvPrint "Hall1 at "] ++ trace (board w))
  /\
  (hall2Check w = Done tt w' ->
   hall2Tripped (vars w) = false ->
   hall2Tripped (vars w') = true ->
   launched (vars w) = true /\
   digital_in (board w) HALL_SENSOR2 (clock (tick (board w))) = false /\
   hall2TripTime (vars w') = ulong (clock (tick (tick (board w)))) /\
   trace (board w')
   = [EvPrintln " ms";
      EvPrintNum (ulong (hall2TripTime (vars w')
                         - coil0TriggerTime (vars w)));
      EvPrint "Hall2 at "] ++ trace (board w)).
Proof.
  intros w w'. split.
  - open_world w. unfold hall1Check. crunch; intros H1 H2;
      try congruence.
    apply negb_true_iff in Heqb1. split_all; try reflexivity; assumption.
  - open_world w. unfold hall2Check. crunch; intros H1 H2;
      try congruence.
    apply negb_true_iff in Heqb1. split_all; try reflexivity; assumption.
Qed.

Lemma sensor_latch_records_witness :
  launched (vars latching_world) = true /\
  digital_in (board latching_world) HALL_SENSOR1
    (clock (tick (board latching_world))) = false /\
  hall1TripTime (vars (world_of (hall1Check latching_world) idle_world))
  = ulong (clock (tick (tick (board latching_world)))) /\
  trace (board (world_of (hall1Check latching_world) idle_world))
  = [EvPrintln " ms";
     EvPrintNum
       (ulong (hall1TripTime
                 (vars (world_of (hall1Check latching_world) idle_world))
               - coil0TriggerTime (vars latching_world)));
     EvPrint "Hall1 at "] ++ trace (board latching_world).
Proof.
  apply (proj1 (sensor_latch_records latching_world
                  (world_of (hall1Check latching_world) idle_world))).
  - vm_compute. reflexivity.
  - vm_compute. reflexivity.
  - vm_compute. reflexivity.
Defined.

(** The speed block leaves at most one flag set. *)
Lemma speedReport_clears_pair w w' :
  speedReport w = Done tt w' ->
  hall1Tripped (vars w') && hall2Tripped (vars w') = false.
Proof.
  open_world w. unfold speedReport. crunch; try reflexivity; assumption.
Qed.

(** X8. The two sensor flags are never both set when a pass ends: the pass
    that sets the second flag reports the speeds and clears both (or stops
    in the division by zero).  So in every state the control loop reaches
    at most one of [hall1Tripped] and [hall2Tripped] is set. *)
Theorem sensor_flags_never_both : forall w,
  reachable w ->
  hall1Tripped (vars w) && hall2Tripped (vars w) = false.
Proof.
  intros w (jit & din & ain & fuel & n & Hrun).
  destruct n as [|n].
  - rewrite run_O in Hrun. revert Hrun. unfold power_on. unfold_blocks.
    crunch. reflexivity.
  - rewrite run_S in Hrun. apply bind_Done in Hrun.
    destruct Hrun as ([] & w0 & _ & Hloop). apply loop_stages in Hloop.
    destruct Hloop as (w1 & w2 & w3 & w4 & w5 & w6 & w7 & w8 & w9 & w10 &
                       S1 & S2 & S3 & S4 & S5 & S6 & S7 & S8 & S9 & S10 & S11).
    destruct hall_flags_kept_late
      as (L7 & L8 & L9 & L10 & L11 & M7 & M8 & M9 & M10 & M11).
    rewrite (L11 _ _ S11), (L10 _ _ S10), (L9 _ _ S9), (L8 _ _ _ S8),
      (L7 _ _ _ S7).
    rewrite (M11 _ _ S11), (M10 _ _ S10), (M9 _ _ S9), (M8 _ _ _ S8),
      (M7 _ _ _ S7).
    exact (speedReport_clears_pair _ _ S6).
Qed.

Lemma sensor_flags_never_both_witness :
  hall1Tripped (vars latched_world) && hall2Tripped (vars latched_world)
  = false.
Proof.
  apply (sensor_flags_never_both latched_world).
  exists (fun k => if (k =? 300)%nat then 2%nat else 1%nat).
  exists timed_board_din, (fun _ _ => 35). exists 100%nat, 10%nat.
  vm_compute. reflexivity.
Defined.

(** ** Start-up *)

(** X9. Start-up always completes, whatever the board.  It leaves the launcher
    ready with nothing in progress, [pulseWidth] at 30 ms and
    [coil0TriggerTime] at the reading of the very first [millis] call (so
    the re-arm delay first counts from reset); the LED shows green, both
    trigger lines are low; the five output pins are set to OUTPUT and the
    three input pins to INPUT_PULLUP; and at least the 1000 ms of the
    [delay] in [setup] have gone by. *)
Theorem startup_state : forall fuel jit din ain,
  exists w,
    run fuel 0 (power_on jit din ain) = Done tt w /\
    readyToLaunch (vars w) = true /\
    launched (vars w) = false /\
    coil0Active (vars w) = false /\
    coil1Active (vars w) = false /\
    hall1Tripped (vars w) = false /\
    hall2Tripped (vars w) = false /\
    pulseWidth (vars w) = 30 /\
    coil0TriggerTime (vars w) = ulong (Z.of_nat (jit 0%nat)) /\
    led_lines (trace (board w)) = led_green /\
    line_level TRIGGER0 (trace (board w)) = false /\
    line_level TRIGGER1 (trace (board w)) = false /\
    pin_mode TRIGGER0 (trace (board w)) = Some OUTPUT /\
    pin_mode TRIGGER1 (trace (board w)) = Some OUTPUT /\
    pin_mode LED_RED_PIN (trace (board w)) = Some OUTPUT /\
    pin_mode LED_GREEN_PIN (trace (board w)) = Some OUTPUT /\
    pin_mode LED_BLUE_PIN (trace (board w)) = Some OUTPUT /\
    pin_mode HALL_SENSOR1 (trace (board w)) = Some INPUT_PULLUP /\
    pin_mode HALL_SENSOR2 (trace (board w)) = Some INPUT_PULLUP /\
    pin_mode LAUNCH_SWITCH (trace (board w)) = Some INPUT_PULLUP /\
    1000 <= clock (board w).
Proof.
  intros fuel jit din ain. rewrite run_O. unfold power_on. unfold_blocks.
  eexists. split; [run_block; reflexivity|].
  run_block. unfold led_lines, led_green.
  cbn [pin_mode line_level Z.eqb Pos.eqb LED_RED_PIN LED_GREEN_PIN
       LED_BLUE_PIN TRIGGER0 TRIGGER1 HALL_SENSOR1 HALL_SENSOR2
       LAUNCH_SWITCH].
  split_all; try reflexivity.
  change (ulong 1000) with 1000. lia.
Qed.

(** ** Output discipline *)

Lemma writes_to_outputs_delays d n tr :
  writes_to_outputs (repeat (EvDelay d) n ++ tr) = writes_to_outputs tr.
Proof. induction n as [|n IH]; [reflexivity | exact IH]. Qed.

Lemma pin_mode_delays pin d n tr :
  pin_mode pin (repeat (EvDelay d) n ++ tr) = pin_mode pin tr.
Proof. induction n as [|n IH]; [reflexivity | exact IH]. Qed.

Ltac settle_pins :=
  repeat (progress
    (rewrite ?trace_after_polls, ?writes_to_outputs_delays, ?pin_mode_delays;
     cbn [writes_to_outputs pin_mode is_output_pin trace tick emit wait
          Z.eqb Pos.eqb TRIGGER0 TRIGGER1 LED_RED_PIN LED_GREEN_PIN
          LED_BLUE_PIN HALL_SENSOR1 HALL_SENSOR2 LAUNCH_SWITCH
          negb andb orb])).

Ltac pins_block :=
  intros w w' Hpins Hrun; open_world w;
  unfold pins_as_configured in *;
  cbn [vars board trace] in Hpins;
  destruct Hpins as (P0 & P1 & P2 & P3 & P4 & P5 & P6 & P7 & P8);
  revert P0 P1 P2 P3 P4 P5 P6 P7 P8; revert Hrun; unfold_blocks; crunch;
  intros P0 P1 P2 P3 P4 P5 P6 P7 P8; settle_pins;
  split_all; assumption.

Lemma blocks_keep_pins : blocks_maintain pins_as_configured.
Proof.
  unfold blocks_maintain, maintains.
  split_all; [ | | | | | | intros fuel | intros fuel | | | ]; pins_block.
Qed.

Lemma reachable_pins w : reachable w -> pins_as_configured w.
Proof.
  apply (run_maintains pins_as_configured).
  - intros jit din ain w0. unfold power_on, pins_as_configured.
    unfold_blocks. crunch. settle_pins. split_all; reflexivity.
  - apply blocks_keep_pins.
Qed.

Lemma writes_to_outputs_In tr : forall p v,
  writes_to_outputs tr = true -> In (EvWrite p v) tr ->
  is_output_pin p = true.
Proof.
  induction tr as [|e tr IH]; intros p v Hw Hin; [destruct Hin|].
  destruct Hin as [->|Hin].
  - cbn [writes_to_outputs] in Hw. apply andb_true_iff in Hw. apply Hw.
  - apply (IH p v); [|exact Hin].
    destruct e; cbn [writes_to_outputs] in Hw; try exact Hw.
    apply andb_true_iff in Hw. apply Hw.
Qed.

(** X10. The sketch never writes to an input.  In every state the control loop
    reaches, each [digitalWrite] so far went to one of the two trigger
    lines or the three LED lines, a pin that is in OUTPUT mode; the switch
    and the two sensors were never written and are in INPUT_PULLUP mode as
    [setup] left them. *)
Theorem writes_only_to_outputs : forall w,
  reachable w ->
  (forall p v, In (EvWrite p v) (trace (board w)) ->
     pin_mode p (trace (board w)) = Some OUTPUT /\
     p <> LAUNCH_SWITCH /\ p <> HALL_SENSOR1 /\ p <> HALL_SENSOR2) /\
  pin_mode LAUNCH_SWITCH (trace (board w)) = Some INPUT_PULLUP /\
  pin_mode HALL_SENSOR1 (trace (board w)) = Some INPUT_PULLUP /\
  pin_mode HALL_SENSOR2 (trace (board w)) = Some INPUT_PULLUP.
Proof.
  intros w Hr.
  destruct (reachable_pins w Hr)
    as (P0 & P1 & P2 & P3 & P4 & P5 & P6 & P7 & P8).
  split; [|split_all; assumption].
  intros p v Hin.
  pose proof (writes_to_outputs_In _ p v P0 Hin) as Hout.
  unfold is_output_pin in Hout.
  repeat (apply orb_true_iff in Hout; destruct Hout as [Hout|Hout]);
    apply Z.eqb_eq in Hout; subst p;
    (split; [assumption | split_all; discriminate]).
Qed.

Lemma writes_only_to_outputs_witness :
  (forall p v, In (EvWrite p v) (trace (board launch_world)) ->
     pin_mode p (trace (board launch_world)) = Some OUTPUT /\
     p <> LAUNCH_SWITCH /\ p <> HALL_SENSOR1 /\ p <> HALL_SENSOR2) /\
  pin_mode LAUNCH_SWITCH (trace (board launch_world)) = Some INPUT_PULLUP /\
  pin_mode HALL_SENSOR1 (trace (board launch_world)) = Some INPUT_PULLUP /\
  pin_mode HALL_SENSOR2 (trace (board launch_world)) = Some INPUT_PULLUP.
Proof.
  apply (writes_only_to_outputs launch_world).
  exists (fun _ => 1%nat), launch_board_din, (fun _ _ => 512).
  exists 100%nat, 2%nat. vm_compute. reflexivity.
Defined.

(** ** What a debounced read costs *)

Lemma poll_board_clock b : clock b + 1 <= clock (poll_board b).
Proof.
  unfold poll_board. cbn [tick wait emit clock ops jitter].
  change (ulong 1) with 1. lia.
Qed.

Lemma after_polls_clock n b :
  clock b + Z.of_nat n <= clock (after_polls n b).
Proof.
  induction n as [|n IH]; [cbn [after_polls]; lia|].
  cbn [after_polls]. pose proof (poll_board_clock (after_polls n b)). lia.
Qed.

Lemma tick_clock b : clock b <= clock (tick b).
Proof. cbn [tick clock]. lia. Qed.

(** X11. A debounced read blocks the loop for at least 20 ms and does nothing
    else: whenever [checkSwitch] returns, the clock has advanced by at
    least 20 ms, the only events are the [delay(1)] calls of its polls (at
    least twenty), no variable has changed and every output line is at the
    level it had. *)
Theorem checkSwitch_costs_20ms : forall fuel pin w v w',
  checkSwitch fuel pin w = Done v w' ->
  vars w' = vars w /\
  clock (board w) + 20 <= clock (board w') /\
  (exists n, (20 <= n)%nat /\
     trace (board w') = repeat (EvDelay 1) n ++ trace (board w)) /\
  (forall p, line_level p (trace (board w'))
             = line_level p (trace (board w))).
Proof.
  intros fuel pin w v w' H.
  pose proof (checkSwitch_cases fuel pin w) as Hc. rewrite H in Hc.
  destruct Hc as (n & Hn & _ & _ & ->).
  pose proof (streak_le (sample pin (board w)) n) as Hle.
  cbn [vars board]. split; [reflexivity|]. split.
  - pose proof (after_polls_clock n (tick (board w))).
    pose proof (tick_clock (board w)). lia.
  - rewrite trace_after_polls. change (ulong 1) with 1.
    cbn [tick trace]. split.
    + exists n. split; [lia | reflexivity].
    + intros p. apply line_level_delays.
Qed.

Lemma checkSwitch_costs_20ms_witness :
  vars (world_of (checkSwitch 20 LAUNCH_SWITCH idle_world) launch_world)
  = vars idle_world /\
  clock (board idle_world) + 20
  <= clock (board (world_of (checkSwitch 20 LAUNCH_SWITCH idle_world)
                     launch_world)) /\
  (exists n, (20 <= n)%nat /\
     trace (board (world_of (checkSwitch 20 LAUNCH_SWITCH idle_world)
                     launch_world))
     = repeat (EvDelay 1) n ++ trace (board idle_world)) /\
  (forall p,
     line_level p
       (trace (board (world_of (checkSwitch 20 LAUNCH_SWITCH idle_world)
                        launch_world)))
     = line_level p (trace (board idle_world))).
Proof.
  apply (checkSwitch_costs_20ms 20 LAUNCH_SWITCH idle_world true).
  vm_compute. reflexivity.
Defined.

(** ** How a launch starts *)

(** [crunch], keeping the equation of each [checkSwitch] call. *)
Ltac crunch_step_eq :=
  run_block;
  match goal with
  | |- context [checkSwitch ?f ?p ?w] =>
      let H := fresh "Hsw" in
      let E := fresh "Esw" in
      pose proof (checkSwitch_cases f p w) as H;
      destruct (checkSwitch f p w) as [? ?| |] eqn:E;
      [ destruct H as (? & _ & _ & ? & ?); subst | contradiction | ]
  | |- context [if ?c then _ else _] => destruct c eqn:?
  | |- Done _ _ = Done _ _ -> _ =>
      let H := fresh in intros H; inversion H; subst; clear H
  | |- DivideByZero = Done _ _ -> _ => discriminate
  | |- Spinning = Done _ _ -> _ => discriminate
  end.

Ltac crunch_eq := repeat crunch_step_eq; run_block.

(** Only [fireCoil0] sets [launched]. *)
Lemma launched_not_set_before :
  (forall w w', readHoldOff w = Done tt w' ->
     launched (vars w') = true -> launched (vars w) = true) /\
  (forall w w', watchdog w = Done tt w' ->
     launched (vars w') = true -> launched (vars w) = true) /\
  (forall w w', indicator w = Done tt w' ->
     launched (vars w') = true -> launched (vars w) = true) /\
  (forall w w', hall1Check w = Done tt w' ->
     launched (vars w') = true -> launched (vars w) = true) /\
  (forall w w', hall2Check w = Done tt w' ->
     launched (vars w') = true -> launched (vars w) = true) /\
  (forall w w', speedReport w = Done tt w' ->
     launched (vars w') = true -> launched (vars w) = true) /\
  (forall fuel w w', rearm fuel w = Done tt w' ->
     launched (vars w') = true -> launched (vars w) = true).
Proof.
  split_all; [ | | | | | | intros fuel ];
    intros w w' Hrun; open_world w; revert Hrun; unfold_blocks; crunch;
    intros H; try exact H; discriminate.
Qed.

Lemma late_blocks_keep :
  keeps launched fireCoil1 /\ keeps launched coil0Expiry /\
  keeps launched coil1Expiry /\
  keeps readyToLaunch fireCoil1 /\ keeps readyToLaunch coil0Expiry /\
  keeps readyToLaunch coil1Expiry /\
  keeps coil0TriggerTime fireCoil1 /\ keeps coil0TriggerTime coil0Expiry /\
  keeps coil0TriggerTime coil1Expiry.
Proof. unfold keeps. split_all; keeps_block. Qed.

(** The launch block, when it sets [launched]. *)
Lemma fireCoil0_fires fuel w w' :
  fireCoil0 fuel w = Done tt w' ->
  launched (vars w) = false ->
  launched (vars w') = true ->
  readyToLaunch (vars w) = true /\
  coil0Active (vars w) = false /\
  coil1Active (vars w) = false /\
  digital_in (board w) HALL_SENSOR1 (clock (tick (board w))) = true /\
  digital_in (board w) HALL_SENSOR2 (clock (tick (tick (board w)))) = true /\
  switch_pressed fuel w /\
  readyToLaunch (vars w') = false /\
  coil0Active (vars w') = true /\
  line_level TRIGGER0 (trace (board w')) = true /\
  coil0TriggerTime (vars w') = ulong (clock (board w')).
Proof.
  open_world w. unfold fireCoil0. crunch_eq; intros Hl0 Hl1;
    try congruence.
  repeat match goal with
         | H : negb _ = true |- _ => apply negb_true_iff in H
         end.
  split_all; try reflexivity; try assumption.
  unfold switch_pressed, after_two_reads. cbn [vars board].
  cbn [vars board] in Esw.
  match goal with
  | H : sample _ _ _ = false |- _ => rewrite H in Esw
  end.
  eexists. exact Esw.
Qed.

(** X12. The launch gate.  A pass through [loop] takes [launched] from clear to
    set only through the coil-0 block, and only if, when that block
    started, the launcher was ready, neither coil flag was set, sensor 1
    and then sensor 2 read HIGH (no sled in front of them), and the
    debounced switch then read LOW (pressed).  The launch clears
    [readyToLaunch], and [coil0TriggerTime] at the end of the pass is the
    [millis] reading that closes the coil-0 block. *)
Theorem launch_gate : forall fuel w w',
  loop fuel w = Done tt w' ->
  launched (vars w) = false ->
  launched (vars w') = true ->
  launched (vars (at_fireCoil0 (pass_from fuel w))) = false /\
  readyToLaunch (vars (at_fireCoil0 (pass_from fuel w))) = true /\
  coil0Active (vars (at_fireCoil0 (pass_from fuel w))) = false /\
  coil1Active (vars (at_fireCoil0 (pass_from fuel w))) = false /\
  digital_in (board (at_fireCoil0 (pass_from fuel w))) HALL_SENSOR1
    (clock (tick (board (at_fireCoil0 (pass_from fuel w))))) = true /\
  digital_in (board (at_fireCoil0 (pass_from fuel w))) HALL_SENSOR2
    (clock (tick (tick (board (at_fireCoil0 (pass_from fuel w)))))) = true /\
  switch_pressed fuel (at_fireCoil0 (pass_from fuel w)) /\
  readyToLaunch (vars w') = false /\
  coil0TriggerTime (vars w')
  = ulong (clock (board (at_fireCoil1 (pass_from fuel w)))).
Proof.
  intros fuel w w' Hloop Hl Hl'.
  apply loop_pass in Hloop.
  set (p := pass_from fuel w) in *.
  destruct Hloop as (S1 & S2 & S3 & S4 & S5 & S6 & S7 & S8 & S9 & S10 & S11).
  destruct launched_not_set_before as (N1 & N2 & N3 & N4 & N5 & N6 & N7).
  destruct late_blocks_keep
    as (K9 & K10 & K11 & R9 & R10 & R11 & T9 & T10 & T11).
  assert (H7 : launched (vars (at_fireCoil0 p)) = false).
  { destruct (launched (vars (at_fireCoil0 p))) eqn:E; [|reflexivity].
    apply (N7 _ _ _ S7), (N6 _ _ S6), (N5 _ _ S5), (N4 _ _ S4),
      (N3 _ _ S3), (N2 _ _ S2), (N1 _ _ S1) in E. congruence. }
  assert (H8 : launched (vars (at_fireCoil1 p)) = true).
  { rewrite <- (K9 _ _ S9), <- (K10 _ _ S10), <- (K11 _ _ S11). exact Hl'. }
  destruct (fireCoil0_fires fuel _ _ S8 H7 H8)
    as (G1 & G2 & G3 & G4 & G5 & G6 & G7 & G8 & G9 & G10).
  split_all; try assumption.
  - rewrite (R11 _ _ S11), (R10 _ _ S10), (R9 _ _ S9). exact G7.
  - rewrite (T11 _ _ S11), (T10 _ _ S10), (T9 _ _ S9). exact G10.
Qed.

(** The first pass on the launch board: armed at start-up, sled away,
    switch held down. *)
Lemma launch_gate_witness :
  launched (vars (at_fireCoil0 (pass_from 100
     (world_of (run 100 0 launch_start) idle_world)))) = false /\
  readyToLaunch (vars (at_fireCoil0 (pass_from 100
     (world_of (run 100 0 launch_start) idle_world)))) = true /\
  coil0Active (vars (at_fireCoil0 (pass_from 100
     (world_of (run 100 0 launch_start) idle_world)))) = false /\
  coil1Active (vars (at_fireCoil0 (pass_from 100
     (world_of (run 100 0 launch_start) idle_world)))) = false /\
  digital_in (board (at_fireCoil0 (pass_from 100
     (world_of (run 100 0 launch_start) idle_world)))) HALL_SENSOR1
    (clock (tick (board (at_fireCoil0 (pass_from 100
       (world_of (run 100 0 launch_start) idle_world)))))) = true /\
  digital_in (board (at_fireCoil0 (pass_from 100
     (world_of (run 100 0 launch_start) idle_world)))) HALL_SENSOR2
    (clock (tick (tick (board (at_fireCoil0 (pass_from 100
       (world_of (run 100 0 launch_start) idle_world))))))) = true /\
  switch_pressed 100 (at_fireCoil0 (pass_from 100
     (world_of (run 100 0 launch_start) idle_world))) /\
  readyToLaunch (vars (world_of (run 100 1 launch_start) idle_world))
  = false /\
  coil0TriggerTime (vars (world_of (run 100 1 launch_start) idle_world))
  = ulong (clock (board (at_fireCoil1 (pass_from 100
      (world_of (run 100 0 launch_start) idle_world))))).
Proof.
  apply (launch_gate 100).
  - vm_compute. reflexivity.
  - vm_compute. reflexivity.
  - vm_compute. reflexivity.
Defined.
(** ** Pulse expiry *)

(** An inactive coil is not even timed. *)
Lemma coil0Expiry_idle w :
  coil0Active (vars w) = false -> coil0Expiry w = Done tt w.
Proof.
  open_world w. unfold coil0Expiry. run_block. intros ->. reflexivity.
Qed.

Lemma coil1Expiry_idle w :
  coil1Active (vars w) = false -> coil1Expiry w = Done tt w.
Proof.
  open_world w. unfold coil1Expiry. run_block. intros ->. reflexivity.
Qed.

(** An active coil is switched off exactly when the block's [millis]
    reading is more than [pulseWidth] past the coil's trigger time. *)
Lemma coil0Expiry_acts w :
  coil0Active (vars w) = true ->
  exists w',
    coil0Expiry w = Done tt w' /\
    (ulong (pulseWidth (vars w))
       < elapsed_since (coil0TriggerTime (vars w)) w ->
     vars w' = set_coil0Active false (vars w) /\
     trace (board w')
     = [EvPrintln "Turn off coil0"; EvWrite TRIGGER0 false]
       ++ trace (board w)) /\
    (elapsed_since (coil0TriggerTime (vars w)) w
       <= ulong (pulseWidth (vars w)) ->
     vars w' = vars w /\ trace (board w') = trace (board w)).
Proof.
  open_world w. unfold coil0Expiry. run_block. intros ->. run_block.
  match goal with |- context [?a <? ?b] =>
    destruct (Z.ltb_spec a b) as [H|H] end;
    run_block; eexists; (split; [reflexivity|]); run_block;
    split; intros H'; try lia; split_all; reflexivity.
Qed.

Lemma coil1Expiry_acts w :
  coil1Active (vars w) = true ->
  exists w',
    coil1Expiry w = Done tt w' /\
    (ulong (pulseWidth (vars w))
       < elapsed_since (coil1TriggerTime (vars w)) w ->
     vars w' = set_coil1Active false (vars w) /\
     trace (board w')
     = [EvPrintln "Turn off coil1"; EvWrite TRIGGER1 false]
       ++ trace (board w)) /\
    (elapsed_since (coil1TriggerTime (vars w)) w
       <= ulong (pulseWidth (vars w)) ->
     vars w' = vars w /\ trace (board w') = trace (board w)).
Proof.
  open_world w. unfold coil1Expiry. run_block. intros ->. run_block.
  match goal with |- context [?a <? ?b] =>
    destruct (Z.ltb_spec a b) as [H|H] end;
    run_block; eexists; (split; [reflexivity|]); run_block;
    split; intros H'; try lia; split_all; reflexivity.
Qed.

(** ** What else switches a coil off *)

(** Seven blocks never touch [coil0Active], eight never [coil1Active]. *)
Lemma coil_flags_kept :
  (keeps coil0Active readHoldOff /\ keeps coil0Active indicator /\
   keeps coil0Active hall1Check /\ keeps coil0Active hall2Check /\
   keeps coil0Active speedReport /\
   (forall fuel, keeps coil0Active (rearm fuel)) /\
   keeps coil0Active coil1Expiry) /\
  (keeps coil1Active readHoldOff /\ keeps coil1Active indicator /\
   keeps coil1Active hall1Check /\ keeps coil1Active hall2Check /\
   keeps coil1Active speedReport /\
   (forall fuel, keeps coil1Active (rearm fuel)) /\
   (forall fuel, keeps coil1Active (fireCoil0 fuel)) /\
   keeps coil1Active coil0Expiry).
Proof.
  unfold keeps.
  split; split_all; [ | | | | | intros fuel | | | | | | | intros fuel
                    | intros fuel | ]; keeps_block.
Qed.

(** The coil-0 block switches coil 0 on or leaves it. *)
Lemma fireCoil0_keeps_on fuel w w' :
  fireCoil0 fuel w = Done tt w' ->
  coil0Active (vars w) = true -> coil0Active (vars w') = true.
Proof.
  open_world w. unfold fireCoil0. crunch; intros H; auto.
Qed.

(** The coil-1 block switches coil 1 on or leaves it. *)
Lemma fireCoil1_keeps_on w w' :
  fireCoil1 w = Done tt w' ->
  coil1Active (vars w) = true -> coil1Active (vars w') = true.
Proof.
  open_world w. unfold_blocks. crunch; intros H; auto.
Qed.

(** The watchdog switches a coil off only when it trips. *)
Lemma watchdog_releases w w' :
  watchdog w = Done tt w' ->
  (coil0Active (vars w) = true /\ coil0Active (vars w') = false) \/
  (coil1Active (vars w) = true /\ coil1Active (vars w') = false) ->
  watchdog_trips w.
Proof.
  unfold watchdog_trips, elapsed_since, next_millis.
  open_world w. unfold watchdog. crunch;
    intros [[H1 H2]|[H1 H2]]; try congruence;
    split; try reflexivity;
    change (ulong FAIL_SAFE_LIMIT) with FAIL_SAFE_LIMIT in *;
    apply Z.ltb_lt; assumption.
Qed.

(** The coil-1 block switches coil 0 off only when it fires. *)
Lemma fireCoil1_releases w w' :
  fireCoil1 w = Done tt w' ->
  coil0Active (vars w) = true -> coil0Active (vars w') = false ->
  coil1_fires w.
Proof.
  unfold coil1_fires, fireCoil1. intros Hrun H1 H2.
  apply bind_Done in Hrun. destruct Hrun as (c & w1 & Hdue & Hbody).
  destruct c; [exists w1; exact Hdue|].
  inversion Hbody; subst w'. exfalso.
  revert Hdue H1 H2. open_world w. unfold coil1Due. crunch;
    intros; congruence.
Qed.

(** A coil that is on when the pass starts and off when it ends was
    switched off by the watchdog, by the coil-1 block (coil 0 only) or by
    its expiry block. *)
Lemma coil0_off_ways fuel w p w' :
  pass_of fuel w p w' ->
  coil0Active (vars w) = true -> coil0Active (vars w') = false ->
  watchdog_trips (at_watchdog p) \/
  coil1_fires (at_fireCoil1 p) \/
  (coil0Active (vars (at_coil0Expiry p)) = true /\
   ulong (pulseWidth (vars (at_coil0Expiry p)))
   < elapsed_since (coil0TriggerTime (vars (at_coil0Expiry p)))
       (at_coil0Expiry p)).
Proof.
  intros (S1 & S2 & S3 & S4 & S5 & S6 & S7 & S8 & S9 & S10 & S11) Hon Hoff.
  destruct coil_flags_kept as ((K1 & K3 & K4 & K5 & K6 & K7 & K11) & _).
  rewrite <- (K1 _ _ S1) in Hon.
  destruct (coil0Active (vars (at_indicator p))) eqn:E2.
  2:{ left. apply (watchdog_releases _ _ S2). left. split; assumption. }
  rewrite <- (K3 _ _ S3), <- (K4 _ _ S4), <- (K5 _ _ S5), <- (K6 _ _ S6),
    <- (K7 _ _ _ S7) in E2.
  pose proof (fireCoil0_keeps_on _ _ _ S8 E2) as E8.
  destruct (coil0Active (vars (at_coil0Expiry p))) eqn:E9.
  2:{ right; left. exact (fireCoil1_releases _ _ S9 E8 E9). }
  right; right. split; [reflexivity|].
  rewrite (K11 _ _ S11) in Hoff.
  destruct (coil0Expiry_acts _ E9) as (w10 & Hrun & _ & Hstay).
  rewrite S10 in Hrun. inversion Hrun; subst w10.
  destruct (Z.lt_ge_cases
              (ulong (pulseWidth (vars (at_coil0Expiry p))))
              (elapsed_since (coil0TriggerTime (vars (at_coil0Expiry p)))
                 (at_coil0Expiry p))) as [Hlt|Hge]; [exact Hlt|].
  destruct (Hstay Hge) as [Hv _]. rewrite Hv in Hoff. congruence.
Qed.

Lemma coil1_off_ways fuel w p w' :
  pass_of fuel w p w' ->
  coil1Active (vars w) = true -> coil1Active (vars w') = false ->
  watchdog_trips (at_watchdog p) \/
  (coil1Active (vars (at_coil1Expiry p)) = true /\
   ulong (pulseWidth (vars (at_coil1Expiry p)))
   < elapsed_since (coil1TriggerTime (vars (at_coil1Expiry p)))
       (at_coil1Expiry p)).
Proof.
  intros (S1 & S2 & S3 & S4 & S5 & S6 & S7 & S8 & S9 & S10 & S11) Hon Hoff.
  destruct coil_flags_kept as (_ & K1 & K3 & K4 & K5 & K6 & K7 & K8 & K10).
  rewrite <- (K1 _ _ S1) in Hon.
  destruct (coil1Active (vars (at_indicator p))) eqn:E2.
  2:{ left. apply (watchdog_releases _ _ S2). right. split; assumption. }
  rewrite <- (K3 _ _ S3), <- (K4 _ _ S4), <- (K5 _ _ S5), <- (K6 _ _ S6),
    <- (K7 _ _ _ S7), <- (K8 _ _ _ S8) in E2.
  pose proof (fireCoil1_keeps_on _ _ S9 E2) as E9.
  rewrite <- (K10 _ _ S10) in E9.
  right. split; [exact E9|].
  destruct (coil1Expiry_acts _ E9) as (w11 & Hrun & _ & Hstay).
  rewrite S11 in Hrun. inversion Hrun; subst w11.
  destruct (Z.lt_ge_cases
              (ulong (pulseWidth (vars (at_coil1Expiry p))))
              (elapsed_since (coil1TriggerTime (vars (at_coil1Expiry p)))
                 (at_coil1Expiry p))) as [Hlt|Hge]; [exact Hlt|].
  destruct (Hstay Hge) as [Hv _]. rewrite Hv in Hoff. congruence.
Qed.

(** C4 (as amended).  The expiry block of a coil that is on always
    completes; it switches the coil off (flag cleared, trigger line low)
    when its [millis] reading is more than [pulseWidth] past the coil's
    trigger time, and leaves flag and line alone when it is not.  So the
    pulse ends in the first pass whose expiry reading is past
    [pulseWidth], if the coil is still on then.  Before that, a coil that
    is on at the start of a pass and off at its end was switched off by the
    watchdog or, for coil 0, by the coil-1 block firing.  [pulseWidth] is
    30 throughout. *)
Theorem pulse_expiry_switches_off :
  (forall w, coil0Active (vars w) = true ->
     exists w',
       coil0Expiry w = Done tt w' /\
       (ulong (pulseWidth (vars w))
          < elapsed_since (coil0TriggerTime (vars w)) w ->
        coil0Active (vars w') = false /\
        line_level TRIGGER0 (trace (board w')) = false) /\
       (elapsed_since (coil0TriggerTime (vars w)) w
          <= ulong (pulseWidth (vars w)) ->
        coil0Active (vars w') = true /\
        line_level TRIGGER0 (trace (board w'))
        = line_level TRIGGER0 (trace (board w))))
  /\
  (forall w, coil1Active (vars w) = true ->
     exists w',
       coil1Expiry w = Done tt w' /\
       (ulong (pulseWidth (vars w))
          < elapsed_since (coil1TriggerTime (vars w)) w ->
        coil1Active (vars w') = false /\
        line_level TRIGGER1 (trace (board w')) = false) /\
       (elapsed_since (coil1TriggerTime (vars w)) w
          <= ulong (pulseWidth (vars w)) ->
        coil1Active (vars w') = true /\
        line_level TRIGGER1 (trace (board w'))
        = line_level TRIGGER1 (trace (board w))))
  /\
  (forall fuel w p w',
     pass_of fuel w p w' ->
     coil0Active (vars w) = true -> coil0Active (vars w') = false ->
     watchdog_trips (at_watchdog p) \/
     coil1_fires (at_fireCoil1 p) \/
     (coil0Active (vars (at_coil0Expiry p)) = true /\
      ulong (pulseWidth (vars (at_coil0Expiry p)))
      < elapsed_since (coil0TriggerTime (vars (at_coil0Expiry p)))
          (at_coil0Expiry p)))
  /\
  (forall fuel w p w',
     pass_of fuel w p w' ->
     coil1Active (vars w) = true -> coil1Active (vars w') = false ->
     watchdog_trips (at_watchdog p) \/
     (coil1Active (vars (at_coil1Expiry p)) = true /\
      ulong (pulseWidth (vars (at_coil1Expiry p)))
      < elapsed_since (coil1TriggerTime (vars (at_coil1Expiry p)))
          (at_coil1Expiry p)))
  /\
  (forall w, between_blocks w -> ulong (pulseWidth (vars w)) = 30).
Proof.
  split_all.
  - intros w Hon. destruct (coil0Expiry_acts w Hon) as (w' & Hrun & Hoff & Hstay).
    exists w'. split; [exact Hrun|]. split; intros H.
    + destruct (Hoff H) as [Hv Ht]. rewrite Hv, Ht. split; reflexivity.
    + destruct (Hstay H) as [Hv Ht]. rewrite Hv, Ht. auto.
  - intros w Hon. destruct (coil1Expiry_acts w Hon) as (w' & Hrun & Hoff & Hstay).
    exists w'. split; [exact Hrun|]. split; intros H.
    + destruct (Hoff H) as [Hv Ht]. rewrite Hv, Ht. split; reflexivity.
    + destruct (Hstay H) as [Hv Ht]. rewrite Hv, Ht. auto.
  - exact coil0_off_ways.
  - exact coil1_off_ways.
  - intros w Hw.
    assert (H : pulseWidth (vars w) = 30).
    { revert w Hw.
      apply (between_maintains (fun w => pulseWidth (vars w) = 30)).
      - intros jit din ain w0. unfold power_on. unfold_blocks. crunch.
        reflexivity.
      - apply blocks_keep_pulseWidth. }
    rewrite H. reflexivity.
Qed.

(** On the board with no sled coil 0 is switched off by its expiry block
    in the fourth pass, 32 ms after it fired; on the launch board coil 1 is
    switched off by its expiry block in the third pass; on the quick board
    coil 0 goes off in the second pass because the coil-1 block fires. *)
Lemma pulse_expiry_switches_off_witness :
  (exists w',
     coil0Expiry (at_coil0Expiry (pass_from 100 no_sled_world)) = Done tt w' /\
     coil0Active (vars w') = false /\
     line_level TRIGGER0 (trace (board w')) = false)
  /\
  (exists w',
     coil1Expiry (at_coil1Expiry (pass_from 100 early_release_after))
     = Done tt w' /\
     coil1Active (vars w') = true /\
     line_level TRIGGER1 (trace (board w'))
     = line_level TRIGGER1
         (trace (board (at_coil1Expiry (pass_from 100 early_release_after)))))
  /\
  (watchdog_trips (at_watchdog (pass_from 100 early_release_before)) \/
   coil1_fires (at_fireCoil1 (pass_from 100 early_release_before)) \/
   (coil0Active (vars (at_coil0Expiry (pass_from 100 early_release_before)))
    = true /\
    ulong (pulseWidth
             (vars (at_coil0Expiry (pass_from 100 early_release_before))))
    < elapsed_since
        (coil0TriggerTime
           (vars (at_coil0Expiry (pass_from 100 early_release_before))))
        (at_coil0Expiry (pass_from 100 early_release_before))))
  /\
  (watchdog_trips (at_watchdog (pass_from 100 launch_world)) \/
   (coil1Active (vars (at_coil1Expiry (pass_from 100 launch_world))) = true /\
    ulong (pulseWidth (vars (at_coil1Expiry (pass_from 100 launch_world))))
    < elapsed_since
        (coil1TriggerTime (vars (at_coil1Expiry (pass_from 100 launch_world))))
        (at_coil1Expiry (pass_from 100 launch_world))))
  /\
  ulong (pulseWidth (vars launch_before_coil1)) = 30.
Proof.
  destruct pulse_expiry_switches_off as (E0 & E1 & W0 & W1 & PW).
  split_all.
  - destruct (E0 (at_coil0Expiry (pass_from 100 no_sled_world)))
      as (w' & Hrun & Hoff & _); [vm_compute; reflexivity|].
    exists w'. split; [exact Hrun|]. apply Hoff. vm_compute. reflexivity.
  - destruct (E1 (at_coil1Expiry (pass_from 100 early_release_after)))
      as (w' & Hrun & _ & Hstay); [vm_compute; reflexivity|].
    exists w'. split; [exact Hrun|]. apply Hstay. vm_compute. discriminate.
  - apply (W0 100%nat early_release_before
             (pass_from 100 early_release_before) early_release_after).
    + apply loop_pass. vm_compute. reflexivity.
    + vm_compute. reflexivity.
    + vm_compute. reflexivity.
  - apply (W1 100%nat launch_world (pass_from 100 launch_world)
             (world_of (loop 100 launch_world) idle_world)).
    + apply loop_pass. vm_compute. reflexivity.
    + vm_compute. reflexivity.
    + vm_compute. reflexivity.
  - apply (PW launch_before_coil1).
    exists (fun _ => 1%nat), launch_board_din, (fun _ _ => 512).
    exists 100%nat, 0%nat, 8%nat. vm_compute. reflexivity.
Defined.

(** As first stated the claim fails: a coil does go off before its pulse
    width has passed.  On the quick board the second pass starts with
    coil 0 on and ends with its flag cleared and its line low, the coil-1
    block having released it 16 ms after it fired; even the [millis]
    reading that follows the pass is only 27 ms past the trigger time,
    within the pulse width of 30. *)
Lemma coil0_released_within_pulse :
  reachable early_release_before /\
  loop 100 early_release_before = Done tt early_release_after /\
  coil0Active (vars early_release_before) = true /\
  line_level TRIGGER0 (trace (board early_release_before)) = true /\
  coil0Active (vars early_release_after) = false /\
  line_level TRIGGER0 (trace (board early_release_after)) = false /\
  coil0TriggerTime (vars early_release_after)
  = coil0TriggerTime (vars early_release_before) /\
  elapsed_since (coil0TriggerTime (vars early_release_after))
    early_release_after = 27 /\
  ulong (pulseWidth (vars early_release_after)) = 30.
Proof.
  split.
  { exists (fun _ => 1%nat).
    exists (fun pin t =>
              if pin =? HALL_SENSOR1 then negb (1085 <=? t)
              else if pin =? HALL_SENSOR2 then true
              else false).
    exists (fun _ _ => 0). exists 100%nat, 1%nat. vm_compute. reflexivity. }
  split_all; vm_compute; reflexivity.
Qed.
(** ** Coils that outlive the launch *)

(** With [launched] clear the watchdog does not even read the clock. *)
Lemma watchdog_idle w :
  launched (vars w) = false -> watchdog w = Done tt w.
Proof.
  open_world w. unfold watchdog. run_block. intros ->. reflexivity.
Qed.

(** With [launched] clear the coil-1 block does not read sensor 1. *)
Lemma fireCoil1_idle w :
  launched (vars w) = false -> fireCoil1 w = Done tt w.
Proof.
  open_world w. unfold fireCoil1, coil1Due. run_block. intros ->.
  reflexivity.
Qed.

(** While a coil is on the coil-0 block makes no core call. *)
Lemma fireCoil0_blocked fuel w :
  coil0Active (vars w) = true \/ coil1Active (vars w) = true ->
  fireCoil0 fuel w = Done tt w.
Proof.
  open_world w. unfold fireCoil0. run_block.
  intros [->| ->]; run_block;
    repeat match goal with
           | |- context [if ?c then _ else _] => destruct c; run_block
           end; reflexivity.
Qed.

(** The speed report ends the launch and leaves the coils as they are. *)
Lemma speedReport_leaves_coils w :
  hall1Tripped (vars w) = true -> hall2Tripped (vars w) = true ->
  interval1 w <> 0 -> interval2 w <> 0 ->
  exists w',
    speedReport w = Done tt w' /\
    launched (vars w') = false /\
    coil0Active (vars w') = coil0Active (vars w) /\
    coil1Active (vars w') = coil1Active (vars w) /\
    coil0TriggerTime (vars w') = coil0TriggerTime (vars w) /\
    coil1TriggerTime (vars w') = coil1TriggerTime (vars w) /\
    line_level TRIGGER0 (trace (board w'))
    = line_level TRIGGER0 (trace (board w)) /\
    line_level TRIGGER1 (trace (board w'))
    = line_level TRIGGER1 (trace (board w)).
Proof.
  intros H1 H2 Hd1 Hd2. apply Z.eqb_neq in Hd1, Hd2.
  revert H1 H2 Hd1 Hd2. unfold interval1, interval2.
  open_world w. unfold speedReport. run_block.
  intros -> -> Hd1 Hd2. run_block. rewrite Hd1. run_block. rewrite Hd2.
  eexists. split; [reflexivity|]. run_block. split_all; reflexivity.
Qed.

(** A pass that starts with [launched] clear keeps it clear up to the
    coil-0 block. *)
Lemma launched_stays_clear fuel w p w' :
  pass_of fuel w p w' ->
  launched (vars w) = false ->
  launched (vars (at_watchdog p)) = false /\
  launched (vars (at_fireCoil0 p)) = false.
Proof.
  intros (S1 & S2 & S3 & S4 & S5 & S6 & S7 & _) Hl.
  destruct launched_not_set_before as (L1 & L2 & L3 & L4 & L5 & L6 & L7).
  assert (N : forall a b : World,
             (launched (vars b) = true -> launched (vars a) = true) ->
             launched (vars a) = false -> launched (vars b) = false).
  { intros a b H Ha. destruct (launched (vars b)); [|reflexivity].
    rewrite H in Ha; [discriminate | reflexivity]. }
  pose proof (N _ _ (L1 _ _ S1) Hl) as N1.
  split; [exact N1|].
  apply (N _ _ (L7 _ _ _ S7)), (N _ _ (L6 _ _ S6)), (N _ _ (L5 _ _ S5)),
    (N _ _ (L4 _ _ S4)), (N _ _ (L3 _ _ S3)), (N _ _ (L2 _ _ S2)), N1.
Qed.

(** With [launched] clear, a coil that is on at the start of a pass is
    still on when its expiry block is reached: the watchdog has done
    nothing, and neither firing block has acted. *)
Lemma coil0_reaches_expiry fuel w p w' :
  pass_of fuel w p w' ->
  launched (vars w) = false -> coil0Active (vars w) = true ->
  at_indicator p = at_watchdog p /\
  coil0Active (vars (at_coil0Expiry p)) = true.
Proof.
  intros Hp Hl Hon.
  destruct (launched_stays_clear _ _ _ _ Hp Hl) as (N1 & N7).
  destruct Hp as (S1 & S2 & S3 & S4 & S5 & S6 & S7 & S8 & S9 & S10 & S11).
  destruct coil_flags_kept as ((K1 & K3 & K4 & K5 & K6 & K7 & K11) & _).
  rewrite (watchdog_idle _ N1) in S2. injection S2 as E2.
  split; [symmetry; exact E2|].
  rewrite <- (K1 _ _ S1), E2, <- (K3 _ _ S3), <- (K4 _ _ S4),
    <- (K5 _ _ S5), <- (K6 _ _ S6), <- (K7 _ _ _ S7) in Hon.
  rewrite (fireCoil0_blocked fuel _ (or_introl Hon)) in S8.
  injection S8 as E8. rewrite E8 in N7, Hon.
  rewrite (fireCoil1_idle _ N7) in S9. injection S9 as E9.
  rewrite <- E9. exact Hon.
Qed.

Lemma coil1_reaches_expiry fuel w p w' :
  pass_of fuel w p w' ->
  launched (vars w) = false -> coil1Active (vars w) = true ->
  at_indicator p = at_watchdog p /\
  coil1Active (vars (at_coil1Expiry p)) = true.
Proof.
  intros Hp Hl Hon.
  destruct (launched_stays_clear _ _ _ _ Hp Hl) as (N1 & N7).
  destruct Hp as (S1 & S2 & S3 & S4 & S5 & S6 & S7 & S8 & S9 & S10 & S11).
  destruct coil_flags_kept as (_ & K1 & K3 & K4 & K5 & K6 & K7 & K8 & K10).
  rewrite (watchdog_idle _ N1) in S2. injection S2 as E2.
  split; [symmetry; exact E2|].
  rewrite <- (K1 _ _ S1), E2, <- (K3 _ _ S3), <- (K4 _ _ S4),
    <- (K5 _ _ S5), <- (K6 _ _ S6), <- (K7 _ _ _ S7), <- (K8 _ _ _ S8)
    in Hon.
  rewrite (K10 _ _ S10). exact (fireCoil1_keeps_on _ _ S9 Hon).
Qed.

(** Each expiry block leaves the other coil's line alone. *)
Lemma coil1Expiry_keeps_line0 w w' :
  coil1Expiry w = Done tt w' ->
  line_level TRIGGER0 (trace (board w'))
  = line_level TRIGGER0 (trace (board w)).
Proof.
  open_world w. unfold coil1Expiry. crunch; reflexivity.
Qed.

(** C9.  A coil stays bounded when the launch ends first.  The speed
    report clears [launched] and leaves both coil flags, both trigger
    times and both trigger lines as they are; with [launched] clear the
    watchdog does nothing, not even read the clock.  The expiry block of a
    coil never looks at [launched]: whenever the coil is on and the block's
    [millis] reading is more than [pulseWidth] past the coil's trigger
    time, the block completes with the flag cleared and the line low.  In a
    pass that starts with [launched] clear and a coil on, the watchdog
    leaves the world as it is, the coil is still on when its expiry block
    is reached, and that block decides: past [pulseWidth] the pass ends
    with the coil off, otherwise with the coil on.  Both situations are
    reached from reset: [launched] clear with coil 0 on, and with coil 1
    on. *)
Theorem expiry_outlives_launch :
  (forall w,
     hall1Tripped (vars w) = true -> hall2Tripped (vars w) = true ->
     interval1 w <> 0 -> interval2 w <> 0 ->
     exists w',
       speedReport w = Done tt w' /\
       launched (vars w') = false /\
       coil0Active (vars w') = coil0Active (vars w) /\
       coil1Active (vars w') = coil1Active (vars w) /\
       coil0TriggerTime (vars w') = coil0TriggerTime (vars w) /\
       coil1TriggerTime (vars w') = coil1TriggerTime (vars w) /\
       line_level TRIGGER0 (trace (board w'))
       = line_level TRIGGER0 (trace (board w)) /\
       line_level TRIGGER1 (trace (board w'))
       = line_level TRIGGER1 (trace (board w)))
  /\
  (forall w, launched (vars w) = false -> watchdog w = Done tt w)
  /\
  (forall w,
     coil0Active (vars w) = true ->
     ulong (pulseWidth (vars w))
       < elapsed_since (coil0TriggerTime (vars w)) w ->
     exists w',
       coil0Expiry w = Done tt w' /\
       coil0Active (vars w') = false /\
       line_level TRIGGER0 (trace (board w')) = false /\
       launched (vars w') = launched (vars w))
  /\
  (forall w,
     coil1Active (vars w) = true ->
     ulong (pulseWidth (vars w))
       < elapsed_since (coil1TriggerTime (vars w)) w ->
     exists w',
       coil1Expiry w = Done tt w' /\
       coil1Active (vars w') = false /\
       line_level TRIGGER1 (trace (board w')) = false /\
       launched (vars w') = launched (vars w))
  /\
  (forall fuel w p w',
     pass_of fuel w p w' ->
     launched (vars w) = false -> coil0Active (vars w) = true ->
     at_indicator p = at_watchdog p /\
     coil0Active (vars (at_coil0Expiry p)) = true /\
     (ulong (pulseWidth (vars (at_coil0Expiry p)))
        < elapsed_since (coil0TriggerTime (vars (at_coil0Expiry p)))
            (at_coil0Expiry p) ->
      coil0Active (vars w') = false /\
      line_level TRIGGER0 (trace (board w')) = false) /\
     (elapsed_since (coil0TriggerTime (vars (at_coil0Expiry p)))
        (at_coil0Expiry p)
        <= ulong (pulseWidth (vars (at_coil0Expiry p))) ->
      coil0Active (vars w') = true))
  /\
  (forall fuel w p w',
     pass_of fuel w p w' ->
     launched (vars w) = false -> coil1Active (vars w) = true ->
     at_indicator p = at_watchdog p /\
     coil1Active (vars (at_coil1Expiry p)) = true /\
     (ulong (pulseWidth (vars (at_coil1Expiry p)))
        < elapsed_since (coil1TriggerTime (vars (at_coil1Expiry p)))
            (at_coil1Expiry p) ->
      coil1Active (vars w') = false /\
      line_level TRIGGER1 (trace (board w')) = false) /\
     (elapsed_since (coil1TriggerTime (vars (at_coil1Expiry p)))
        (at_coil1Expiry p)
        <= ulong (pulseWidth (vars (at_coil1Expiry p))) ->
      coil1Active (vars w') = true))
  /\
  (exists w, reachable w /\ launched (vars w) = false /\
     coil0Active (vars w) = true /\
     line_level TRIGGER0 (trace (board w)) = true)
  /\
  (exists w, reachable w /\ launched (vars w) = false /\
     coil1Active (vars w) = true /\
     line_level TRIGGER1 (trace (board w)) = true).
Proof.
  split_all.
  - exact speedReport_leaves_coils.
  - exact watchdog_idle.
  - intros w Hon Hpast.
    destruct (coil0Expiry_acts w Hon) as (w' & Hrun & Hoff & _).
    destruct (Hoff Hpast) as [Hv Ht]. exists w'.
    rewrite Hv, Ht. split_all; [exact Hrun | | | ]; reflexivity.
  - intros w Hon Hpast.
    destruct (coil1Expiry_acts w Hon) as (w' & Hrun & Hoff & _).
    destruct (Hoff Hpast) as [Hv Ht]. exists w'.
    rewrite Hv, Ht. split_all; [exact Hrun | | | ]; reflexivity.
  - intros fuel w p w' Hp Hl Hon.
    destruct (coil0_reaches_expiry _ _ _ _ Hp Hl Hon) as [Hw Hat].
    split; [exact Hw|]. split; [exact Hat|].
    destruct Hp as (_ & _ & _ & _ & _ & _ & _ & _ & _ & S10 & S11).
    destruct coil_flags_kept as ((_ & _ & _ & _ & _ & _ & K11) & _).
    rewrite (K11 _ _ S11), (coil1Expiry_keeps_line0 _ _ S11).
    destruct (coil0Expiry_acts _ Hat) as (w10 & Hrun & Hoff & Hstay).
    rewrite S10 in Hrun. injection Hrun as <-.
    split; intros H.
    + destruct (Hoff H) as [Hv Ht]. rewrite Hv, Ht. split; reflexivity.
    + destruct (Hstay H) as [Hv _]. rewrite Hv. exact Hat.
  - intros fuel w p w' Hp Hl Hon.
    destruct (coil1_reaches_expiry _ _ _ _ Hp Hl Hon) as [Hw Hat].
    split; [exact Hw|]. split; [exact Hat|].
    destruct Hp as (_ & _ & _ & _ & _ & _ & _ & _ & _ & _ & S11).
    destruct (coil1Expiry_acts _ Hat) as (w11 & Hrun & Hoff & Hstay).
    rewrite S11 in Hrun. injection Hrun as <-.
    split; intros H.
    + destruct (Hoff H) as [Hv Ht]. rewrite Hv, Ht. split; reflexivity.
    + destruct (Hstay H) as [Hv _]. rewrite Hv. exact Hat.
  - exists orphan_coil0_world. split.
    { exists (fun _ => 1%nat).
      exists (fun pin t =>
                if pin =? HALL_SENSOR1
                then negb ((1090 <=? t) && (t <? 1092))
                else if pin =? HALL_SENSOR2 then negb (1095 <=? t)
                else false).
      exists (fun _ _ => 512). exists 100%nat, 2%nat.
      vm_compute. reflexivity. }
    split_all; vm_compute; reflexivity.
  - exists launch_world. split.
    { exists (fun _ => 1%nat), launch_board_din, (fun _ _ => 512).
      exists 100%nat, 2%nat. vm_compute. reflexivity. }
    split_all; vm_compute; reflexivity.
Qed.

(** The timed launch at its speed report; the orphaned coil 0, switched
    off by its expiry block in the next pass, 31 ms after it fired; the
    launch board, whose coil 1 is switched off in the next pass. *)
Lemma expiry_outlives_launch_witness :
  (exists w',
     speedReport timed_before_report = Done tt w' /\
     launched (vars w') = false /\
     coil0Active (vars w') = coil0Active (vars timed_before_report) /\
     coil1Active (vars w') = coil1Active (vars timed_before_report) /\
     coil0TriggerTime (vars w') = coil0TriggerTime (vars timed_before_report) /\
     coil1TriggerTime (vars w') = coil1TriggerTime (vars timed_before_report) /\
     line_level TRIGGER0 (trace (board w'))
     = line_level TRIGGER0 (trace (board timed_before_report)) /\
     line_level TRIGGER1 (trace (board w'))
     = line_level TRIGGER1 (trace (board timed_before_report)))
  /\
  watchdog orphan_coil0_world = Done tt orphan_coil0_world
  /\
  (exists w',
     coil0Expiry (at_coil0Expiry (pass_from 100 orphan_coil0_world))
     = Done tt w' /\
     coil0Active (vars w') = false /\
     line_level TRIGGER0 (trace (board w')) = false /\
     launched (vars w')
     = launched (vars (at_coil0Expiry (pass_from 100 orphan_coil0_world))))
  /\
  (exists w',
     coil1Expiry (at_coil1Expiry (pass_from 100 launch_world)) = Done tt w' /\
     coil1Active (vars w') = false /\
     line_level TRIGGER1 (trace (board w')) = false /\
     launched (vars w')
     = launched (vars (at_coil1Expiry (pass_from 100 launch_world))))
  /\
  (coil0Active (vars (world_of (loop 100 orphan_coil0_world) idle_world))
   = false /\
   line_level TRIGGER0
     (trace (board (world_of (loop 100 orphan_coil0_world) idle_world)))
   = false)
  /\
  (coil1Active (vars (world_of (loop 100 launch_world) idle_world)) = false /\
   line_level TRIGGER1
     (trace (board (world_of (loop 100 launch_world) idle_world)))
   = false).
Proof.
  destruct expiry_outlives_launch
    as (R & W & E0 & E1 & P0 & P1 & _ & _).
  split; [|split; [|split; [|split; [|split]]]].
  - apply (R timed_before_report).
    + vm_compute. reflexivity.
    + vm_compute. reflexivity.
    + vm_compute. discriminate.
    + vm_compute. discriminate.
  - apply (W orphan_coil0_world). vm_compute. reflexivity.
  - apply (E0 (at_coil0Expiry (pass_from 100 orphan_coil0_world))).
    + vm_compute. reflexivity.
    + vm_compute. reflexivity.
  - apply (E1 (at_coil1Expiry (pass_from 100 launch_world))).
    + vm_compute. reflexivity.
    + vm_compute. reflexivity.
  - destruct (P0 100%nat orphan_coil0_world
                (pass_from 100 orphan_coil0_world)
                (world_of (loop 100 orphan_coil0_world) idle_world))
      as (_ & _ & Hoff & _).
    + apply loop_pass. vm_compute. reflexivity.
    + vm_compute. reflexivity.
    + vm_compute. reflexivity.
    + apply Hoff. vm_compute. reflexivity.
  - destruct (P1 100%nat launch_world (pass_from 100 launch_world)
                (world_of (loop 100 launch_world) idle_world))
      as (_ & _ & Hoff & _).
    + apply loop_pass. vm_compute. reflexivity.
    + vm_compute. reflexivity.
    + vm_compute. reflexivity.
    + apply Hoff. vm_compute. reflexivity.
Defined.
(** ** Timing on a prompt board *)
















(** ** One block at a time *)













(** ** Through a pass *)




(** ** The re-arm gate *)





(** ** Ready and coil on a prompt board *)







